(** * Timetable management: domain model and persistence gateway

    A shallow embedding of [models.py] and [data_manager.py]: the four
    dataclasses, their conversion to and from JSON mappings, and the
    read-modify-write operations of [DataManager] over the files of the
    data directory. *)

From Stdlib Require Import ZArith String Ascii.
From stdpp Require Import base option list strings.

Set Warnings "-register-all".

Local Open Scope Z_scope.
Local Open Scope string_scope.
Local Open Scope list_scope.

(** ** Python values

    What [json.load] produces and [json.dump] consumes.  A dict keeps its
    insertion order, so it is an association list; as in Python its keys
    are distinct, and a lookup takes the first binding.  Strings are
    sequences of 8-bit characters. *)

Inductive value : Type :=
| VNone
| VBool (b : bool)
| VInt (n : Z)
| VStr (s : string)
| VList (l : list value)
| VDict (d : list (string * value)).

(** The exceptions the modelled code can raise. *)
Inductive exn : Type :=
| KeyError (k : string)
| TypeError
| AttributeError.

Inductive result (A : Type) : Type :=
| Ok (a : A)
| Raise (e : exn).
Arguments Ok {A} a.
Arguments Raise {A} e.

#[global] Instance result_ret : MRet result := λ A a, Ok a.
#[global] Instance result_bind : MBind result := λ A B f m,
  match m with
  | Ok a => f a
  | Raise e => Raise e
  end.

Definition raises {A} (r : result A) : Prop := ∃ e, r = Raise e.

(** The dataclasses are annotated ([name: str], [credits: int]) but the
    constructors check nothing, so a mapping read from a file can put any
    value into a field.  [Typed a] is an object all of whose fields have the
    annotated types; [Untyped] is an object with a field off its annotation,
    which this development does not follow any further. *)
Inductive dyn (A : Type) : Type :=
| Typed (a : A)
| Untyped.
Arguments Typed {A} a.
Arguments Untyped {A}.

#[global] Instance dyn_ret : MRet dyn := λ A a, Typed a.
#[global] Instance dyn_bind : MBind dyn := λ A B f m,
  match m with
  | Typed a => f a
  | Untyped => Untyped
  end.

Definition as_str (v : value) : dyn string :=
  match v with VStr s => Typed s | _ => Untyped end.

Definition as_int (v : value) : dyn Z :=
  match v with VInt n => Typed n | _ => Untyped end.

Fixpoint all_typed {A} (l : list (dyn A)) : dyn (list A) :=
  match l with
  | [] => Typed []
  | x :: rest => a ← x; r ← all_typed rest; Typed (a :: r)
  end.

(** [d.get(k)] on the bindings of a dict. *)
Fixpoint lookup_key (k : string) (d : list (string * value)) : option value :=
  match d with
  | [] => None
  | (k', v) :: rest => if String.eqb k' k then Some v else lookup_key k rest
  end.

(** [v[k]] with a string key. *)
Definition subscript (v : value) (k : string) : result value :=
  match v with
  | VDict d =>
      match lookup_key k d with
      | Some x => Ok x
      | None => Raise (KeyError k)
      end
  | _ => Raise TypeError
  end.

(** [v.get(k, dflt)]: only a dict has the method. *)
Definition get (v : value) (k : string) (dflt : value) : result value :=
  match v with
  | VDict d => Ok (default dflt (lookup_key k d))
  | _ => Raise AttributeError
  end.

(** [for x in v]: a list yields its items, a dict its keys, a string its
    characters; nothing else is iterable. *)
Fixpoint chars (s : string) : list value :=
  match s with
  | EmptyString => []
  | String c rest => VStr (String c EmptyString) :: chars rest
  end.

Definition iterate (v : value) : result (list value) :=
  match v with
  | VList l => Ok l
  | VDict d => Ok (map (λ kv, VStr kv.1) d)
  | VStr s => Ok (chars s)
  | _ => Raise TypeError
  end.

(** [v == s] for a string [s]. *)
Definition eq_str (v : value) (s : string) : bool :=
  match v with
  | VStr s' => String.eqb s' s
  | _ => false
  end.

(** ** The clock

    [datetime.now().isoformat()]: each call takes the next reading. *)

Definition clock : Type := nat → string.

Definition now (c : clock) : string * clock := (c 0%nat, λ n, c (S n)).

(** ** Domain model ([models.py]) *)

Module TimeSlot.
Record t : Type := mk { start_time : string; end_time : string }.

Definition __str__ (self : t) : string :=
  start_time self +:+ " - " +:+ end_time self.

Definition asdict (self : t) : value :=
  VDict [("start_time", VStr (start_time self));
         ("end_time", VStr (end_time self))].

Definition fields : list string := ["start_time"; "end_time"].

(** The constructor applied to [v] unpacked as keyword arguments: [v] must
    be a mapping whose keys are field names and which binds both fields. *)
Definition kwargs (v : value) : result (dyn t) :=
  match v with
  | VDict d =>
      if forallb (λ kv, bool_decide (kv.1 ∈ fields)) d then
        match lookup_key "start_time" d, lookup_key "end_time" d with
        | Some s, Some e => Ok (s ← as_str s; e ← as_str e; Typed (mk s e))
        | _, _ => Raise TypeError
        end
      else Raise TypeError
  | _ => Raise TypeError
  end.
End TimeSlot.

Module Subject.
Record t : Type := mk {
  name : string;
  code : string;
  credits : Z;
  instructor : string;
  color : string
}.

Definition __str__ (self : t) : string := code self +:+ ": " +:+ name self.

Definition asdict (self : t) : value :=
  VDict [("name", VStr (name self));
         ("code", VStr (code self));
         ("credits", VInt (credits self));
         ("instructor", VStr (instructor self));
         ("color", VStr (color self))].

Definition fields : list string :=
  ["name"; "code"; "credits"; "instructor"; "color"].

(** The constructor applied to [v] unpacked as keyword arguments: [name]
    and [code] are required, the other fields have the defaults of the
    dataclass. *)
Definition kwargs (v : value) : result (dyn t) :=
  match v with
  | VDict d =>
      if forallb (λ kv, bool_decide (kv.1 ∈ fields)) d then
        match lookup_key "name" d, lookup_key "code" d with
        | Some n, Some c =>
            Ok (n ← as_str n;
                c ← as_str c;
                cr ← as_int (default (VInt 3) (lookup_key "credits" d));
                i ← as_str (default (VStr EmptyString) (lookup_key "instructor" d));
                col ← as_str (default (VStr "#3b82f6") (lookup_key "color" d));
                Typed (mk n c cr i col))
        | _, _ => Raise TypeError
        end
      else Raise TypeError
  | _ => Raise TypeError
  end.
End Subject.

Module ClassSession.
Record t : Type := mk {
  subject : Subject.t;
  day : string;
  time_slot : TimeSlot.t;
  room : string;
  session_type : string;
  notes : string
}.

Definition __str__ (self : t) : string :=
  Subject.name (subject self) +:+ " (" +:+ TimeSlot.__str__ (time_slot self)
    +:+ ") - " +:+ room self.
End ClassSession.

#[global] Instance TimeSlot_eq_dec : EqDecision TimeSlot.t.
Proof. solve_decision. Defined.
#[global] Instance Subject_eq_dec : EqDecision Subject.t.
Proof. solve_decision. Defined.
#[global] Instance ClassSession_eq_dec : EqDecision ClassSession.t.
Proof. solve_decision. Defined.

(** [str.lower()] belongs to the Python library, not to this repository,
    and lower-cases all of Unicode: the model takes it as a parameter.  A
    [string] stands for a Python [str] through its UTF-8 bytes. *)
Class StrLower : Type := lower : string → string.

(** What [str.lower()] does on a string of ASCII characters: the letters
    [A]..[Z] move to [a]..[z], every other character stays. *)
Definition ascii_lower_char (c : ascii) : ascii :=
  let n := N_of_ascii c in
  if ((65 <=? n) && (n <=? 90))%N then ascii_of_N (n + 32) else c.

Fixpoint ascii_lower (s : string) : string :=
  match s with
  | EmptyString => EmptyString
  | String c rest => String (ascii_lower_char c) (ascii_lower rest)
  end.

(** [l.remove(x)] when [x in l]: the first item equal to [x] goes. *)
Fixpoint list_remove `{EqDecision A} (x : A) (l : list A) : list A :=
  match l with
  | [] => []
  | y :: rest => if decide (y = x) then rest else y :: list_remove x rest
  end.

Module Timetable.
Record t : Type := mk {
  name : string;
  semester : string;
  sessions : list ClassSession.t;
  created_date : string;
  last_modified : string
}.

Definition set_sessions (l : list ClassSession.t) (self : t) : t :=
  mk (name self) (semester self) l (created_date self) (last_modified self).
Definition set_created_date (ts : string) (self : t) : t :=
  mk (name self) (semester self) (sessions self) ts (last_modified self).
Definition set_last_modified (ts : string) (self : t) : t :=
  mk (name self) (semester self) (sessions self) (created_date self) ts.

(** Runs at the end of every construction. *)
Definition __post_init__ (self : t) (c : clock) : t * clock :=
  let '(self, c) :=
    if bool_decide (created_date self = "") then
      let '(ts, c) := now c in (set_created_date ts self, c)
    else (self, c) in
  let '(ts, c) := now c in
  (set_last_modified ts self, c).

(** The generated constructor followed by [__post_init__]. *)
Definition __init__ (name semester : string) (sessions : list ClassSession.t)
    (created_date last_modified : string) (c : clock) : t * clock :=
  __post_init__ (mk name semester sessions created_date last_modified) c.

Definition add_session (session : ClassSession.t) (self : t) (c : clock)
    : t * clock :=
  let self := set_sessions (sessions self ++ [session]) self in
  let '(ts, c) := now c in
  (set_last_modified ts self, c).

Definition remove_session (session : ClassSession.t) (self : t) (c : clock)
    : t * clock :=
  if bool_decide (session ∈ sessions self) then
    let self := set_sessions (list_remove session (sessions self)) self in
    let '(ts, c) := now c in
    (set_last_modified ts self, c)
  else (self, c).

Definition get_sessions_by_day `{StrLower} (self : t) (day : string)
    : list ClassSession.t :=
  List.filter
    (λ session, String.eqb (lower (ClassSession.day session)) (lower day))
    (sessions self).

Definition get_sessions_by_subject (self : t) (subject_code : string)
    : list ClassSession.t :=
  List.filter
    (λ session,
       String.eqb (Subject.code (ClassSession.subject session)) subject_code)
    (sessions self).

Definition session_to_dict (session : ClassSession.t) : value :=
  VDict [("subject", Subject.asdict (ClassSession.subject session));
         ("day", VStr (ClassSession.day session));
         ("time_slot", TimeSlot.asdict (ClassSession.time_slot session));
         ("room", VStr (ClassSession.room session));
         ("session_type", VStr (ClassSession.session_type session));
         ("notes", VStr (ClassSession.notes session))].

Definition to_dict (self : t) : value :=
  VDict [("name", VStr (name self));
         ("semester", VStr (semester self));
         ("created_date", VStr (created_date self));
         ("last_modified", VStr (last_modified self));
         ("sessions", VList (map session_to_dict (sessions self)))].

(** One turn of the loop of [from_dict]. *)
Definition session_from_dict (session_data : value)
    : result (dyn ClassSession.t) :=
  sv ← subscript session_data "subject";
  subject ← Subject.kwargs sv;
  tv ← subscript session_data "time_slot";
  time_slot ← TimeSlot.kwargs tv;
  day ← subscript session_data "day";
  room ← get session_data "room" (VStr "");
  session_type ← get session_data "session_type" (VStr "Lecture");
  notes ← get session_data "notes" (VStr "");
  Ok (subject ← subject;
      day ← as_str day;
      time_slot ← time_slot;
      room ← as_str room;
      session_type ← as_str session_type;
      notes ← as_str notes;
      Typed (ClassSession.mk subject day time_slot room session_type notes)).

Fixpoint sessions_from_dicts (items : list value)
    : result (list (dyn ClassSession.t)) :=
  match items with
  | [] => Ok []
  | session_data :: rest =>
      session ← session_from_dict session_data;
      sessions ← sessions_from_dicts rest;
      Ok (session :: sessions)
  end.

Definition from_dict (data : value) (c : clock) : result (dyn (t * clock)) :=
  sv ← get data "sessions" (VList []);
  items ← iterate sv;
  sessions ← sessions_from_dicts items;
  name ← subscript data "name";
  semester ← subscript data "semester";
  created_date ← get data "created_date" (VStr "");
  last_modified ← get data "last_modified" (VStr "");
  Ok (sessions ← all_typed sessions;
      name ← as_str name;
      semester ← as_str semester;
      created_date ← as_str created_date;
      last_modified ← as_str last_modified;
      Typed (__init__ name semester sessions created_date last_modified c)).
End Timetable.

(** ** The [csv] writer

    [csv.DictWriter] with the default dialect: fields are separated by a
    comma, a row ends with CR LF, and a field that holds a comma, a quote, CR
    or LF is put between quotes with its quotes doubled. *)

Definition dquote : ascii := "034"%char.
Definition CR : ascii := "013"%char.
Definition LF : ascii := "010"%char.

Definition lineterminator : string := String CR (String LF "").

Definition special (c : ascii) : bool :=
  Ascii.eqb c "," || Ascii.eqb c dquote || Ascii.eqb c CR || Ascii.eqb c LF.

Fixpoint needs_quotes (s : string) : bool :=
  match s with
  | EmptyString => false
  | String c rest => special c || needs_quotes rest
  end.

Fixpoint double_quotes (s : string) : string :=
  match s with
  | EmptyString => EmptyString
  | String c rest =>
      if Ascii.eqb c dquote
      then String dquote (String dquote (double_quotes rest))
      else String c (double_quotes rest)
  end.

Definition csv_field (s : string) : string :=
  if needs_quotes s
  then String dquote (double_quotes s +:+ String dquote "")
  else s.

Fixpoint join_fields (fields : list string) : string :=
  match fields with
  | [] => ""
  | [f] => f
  | f :: rest => f +:+ "," +:+ join_fields rest
  end.

(** [writer.writerow(fields)]: the text of one row.  A row made of one empty
    field is written as a pair of quotes. *)
Definition csv_record (fields : list string) : string :=
  match fields with
  | [EmptyString] => String dquote (String dquote "")
  | _ => join_fields (map csv_field fields)
  end +:+ lineterminator.

(** ** Persistence gateway ([data_manager.py])

    A file of the data directory is absent, present but not readable as
    JSON ([open] or [json.load] raises), or holds the JSON value that
    [json.load] returns; [json.dump] followed by [json.load] is the identity
    on [value]. *)

Inductive file : Type :=
| Absent
| Unreadable
| Holds (v : value).

(** What the environment does with a write: it goes through, or [open] or
    [json.dump] raises and the file is left as [residue] (there is no atomic
    replace). *)
Inductive io : Type :=
| IoOk
| IoFault (residue : file).

Module DataManager.
Record t : Type := mk {
  timetables_file : file;
  subjects_file : file;
  settings_file : file
}.

Definition set_timetables_file (f : file) (self : t) : t :=
  mk f (subjects_file self) (settings_file self).
Definition set_settings_file (f : file) (self : t) : t :=
  mk (timetables_file self) (subjects_file self) f.

(** The data directory right after the first [DataManager(data_dir)]. *)
Definition empty : t := mk Absent Absent Absent.

Definition load_all_timetables (self : t) : value :=
  match timetables_file self with
  | Holds v => v
  | Absent => VList []
  | Unreadable => VList []
  end.

(** The [for i, existing in enumerate(timetables)] loop of
    [save_timetable], from index [i] on: the index of the first entry
    named [name], if the loop reaches one. *)
Fixpoint find_existing (name : string) (timetables : list value) (i : nat)
    : result (option nat) :=
  match timetables with
  | [] => Ok None
  | existing :: rest =>
      n ← subscript existing "name";
      if eq_str n name then Ok (Some i) else find_existing name rest (S i)
  end.

(** The [try] block of [save_timetable] up to the write: the collection to
    be written. *)
Definition updated_timetables (timetable : Timetable.t) (self : t)
    : result value :=
  match load_all_timetables self with
  | VList timetables =>
      found ← find_existing (Timetable.name timetable) timetables 0;
      Ok (VList match found with
                | Some i => <[i := Timetable.to_dict timetable]> timetables
                | None => timetables ++ [Timetable.to_dict timetable]
                end)
  | other =>
      (* the file held something else than a list: the loop runs over its
         keys or characters, none of which can be subscripted by a string,
         and without any the value has no [append] *)
      items ← iterate other;
      found ← find_existing (Timetable.name timetable) items 0;
      match found with
      | Some _ => Raise TypeError
      | None => Raise AttributeError
      end
  end.

(** Every exception is caught and reported as [False]; one raised before
    the write leaves the directory as it was. *)
Definition write_timetables (w : io) (attempt : result value) (self : t)
    : bool * t :=
  match attempt with
  | Raise _ => (false, self)
  | Ok v =>
      match w with
      | IoOk => (true, set_timetables_file (Holds v) self)
      | IoFault residue => (false, set_timetables_file residue self)
      end
  end.

Definition save_timetable (w : io) (timetable : Timetable.t) (self : t)
    : bool * t :=
  write_timetables w (updated_timetables timetable self) self.

(** The loop of [load_timetable]. *)
Fixpoint scan_timetables (name : string) (timetables : list value)
    (c : clock) : result (option (dyn (Timetable.t * clock))) :=
  match timetables with
  | [] => Ok None
  | timetable_data :: rest =>
      n ← subscript timetable_data "name";
      if eq_str n name
      then r ← Timetable.from_dict timetable_data c; Ok (Some r)
      else scan_timetables name rest c
  end.

(** [None] is Python's [None]: no entry has the name, or an exception was
    caught; the clock has not been read then. *)
Definition load_timetable (name : string) (self : t) (c : clock)
    : option (dyn (Timetable.t * clock)) :=
  match
    timetables ← iterate (load_all_timetables self);
    scan_timetables name timetables c
  with
  | Ok r => r
  | Raise _ => None
  end.

Fixpoint names_of (timetables : list value) : result (list value) :=
  match timetables with
  | [] => Ok []
  | timetable :: rest =>
      n ← subscript timetable "name";
      ns ← names_of rest;
      Ok (n :: ns)
  end.

Definition get_timetable_names (self : t) : list value :=
  match timetables ← iterate (load_all_timetables self); names_of timetables
  with
  | Ok ns => ns
  | Raise _ => []
  end.

(** [[t for t in timetables if t['name'] != name]] *)
Fixpoint keep_others (name : string) (timetables : list value)
    : result (list value) :=
  match timetables with
  | [] => Ok []
  | t :: rest =>
      n ← subscript t "name";
      kept ← keep_others name rest;
      Ok (if eq_str n name then kept else t :: kept)
  end.

Definition delete_timetable (w : io) (name : string) (self : t) : bool * t :=
  write_timetables w
    (timetables ← iterate (load_all_timetables self);
     kept ← keep_others name timetables;
     Ok (VList kept))
    self.

Definition get_default_settings : value :=
  VDict [("theme", VStr "dark");
         ("appearance_mode", VStr "dark");
         ("color_theme", VStr "blue");
         ("window_geometry", VStr "1200x800");
         ("auto_save", VBool true);
         ("show_weekend", VBool false);
         ("time_format", VStr "24h");
         ("default_session_duration", VInt 60);
         ("reminder_enabled", VBool true);
         ("reminder_minutes", VInt 15)].

Definition save_settings (w : io) (settings : value) (self : t) : bool * t :=
  match w with
  | IoOk => (true, set_settings_file (Holds settings) self)
  | IoFault residue => (false, set_settings_file residue self)
  end.

Definition load_settings (self : t) : value :=
  match settings_file self with
  | Holds v => v
  | Absent => get_default_settings
  | Unreadable => get_default_settings
  end.

Definition fieldnames : list string :=
  ["Day"; "Time"; "Subject"; "Code"; "Room"; "Type"; "Instructor"; "Notes"].

(** The row dict handed to [writer.writerow], in the order of
    [fieldnames]. *)
Definition session_row (session : ClassSession.t) : list string :=
  [ClassSession.day session;
   TimeSlot.__str__ (ClassSession.time_slot session);
   Subject.name (ClassSession.subject session);
   Subject.code (ClassSession.subject session);
   ClassSession.room session;
   ClassSession.session_type session;
   Subject.instructor (ClassSession.subject session);
   ClassSession.notes session].

(** The file object is the sequence of its [write] calls; the writer
    makes one call for each row. *)
Definition writerow (fields : list string) (csvfile : list string)
    : list string :=
  csvfile ++ [csv_record fields].

Definition writeheader (csvfile : list string) : list string :=
  writerow fieldnames csvfile.

(** What the [with] block of [export_to_csv] writes. *)
Definition csv_writes (timetable : Timetable.t) : list string :=
  fold_left (λ csvfile session, writerow (session_row session) csvfile)
    (Timetable.sessions timetable) (writeheader []).

(** The text of a file after these writes. *)
Definition text_of (writes : list string) : string :=
  fold_right String.append "" writes.

(** [writable]: whether [open] and the writes go through.  The result is
    the flag returned and the text of the file at [file_path]. *)
Definition export_to_csv (writable : bool) (timetable : Timetable.t)
    : bool * option string :=
  if writable then (true, Some (text_of (csv_writes timetable)))
  else (false, None).
Definition set_subjects_file (f : file) (self : t) : t :=
  mk (timetables_file self) f (settings_file self).

(** The mapping [save_subjects] builds for one subject. *)
Definition subject_to_dict (subject : Subject.t) : value :=
  VDict [("name", VStr (Subject.name subject));
         ("code", VStr (Subject.code subject));
         ("credits", VInt (Subject.credits subject));
         ("instructor", VStr (Subject.instructor subject));
         ("color", VStr (Subject.color subject))].

Definition save_subjects (w : io) (subjects : list Subject.t) (self : t)
    : bool * t :=
  let subjects_data := VList (map subject_to_dict subjects) in
  match w with
  | IoOk => (true, set_subjects_file (Holds subjects_data) self)
  | IoFault residue => (false, set_subjects_file residue self)
  end.

(** The comprehension of [load_subjects]: the constructor applied to each
    item unpacked as keyword arguments. *)
Fixpoint subjects_of (subjects_data : list value)
    : result (list (dyn Subject.t)) :=
  match subjects_data with
  | [] => Ok []
  | subject_data :: rest =>
      subject ← Subject.kwargs subject_data;
      subjects ← subjects_of rest;
      Ok (subject :: subjects)
  end.

Definition load_subjects (self : t) : list (dyn Subject.t) :=
  match subjects_file self with
  | Holds subjects_data =>
      match items ← iterate subjects_data; subjects_of items with
      | Ok subjects => subjects
      | Raise _ => []
      end
  | Absent => []
  | Unreadable => []
  end.

(** [export_to_json]: the flag returned and the file at [file_path]
    afterwards, which the call overwrites whatever it held. *)
Definition export_to_json (w : io) (timetable : Timetable.t) : bool * file :=
  match w with
  | IoOk => (true, Holds (Timetable.to_dict timetable))
  | IoFault residue => (false, residue)
  end.

(** [import_from_json] on the file at [file_path]; [None] when opening,
    parsing or [from_dict] raises. *)
Definition import_from_json (f : file) (c : clock)
    : option (dyn (Timetable.t * clock)) :=
  match f with
  | Holds data =>
      match Timetable.from_dict data c with
      | Ok r => Some r
      | Raise _ => None
      end
  | Absent => None
  | Unreadable => None
  end.
End DataManager.

(** ** The computations of the window ([timetable_gui.py])

    The parts of [ModernTimetableApp] that compute on the current timetable;
    the widgets they feed are left out. *)

Definition WEEKDAYS : list string :=
  ["Monday"; "Tuesday"; "Wednesday"; "Thursday"; "Friday"; "Saturday"].

Module ModernTimetableApp.
(** [find_session]: the first session of the current timetable on that day
    in that slot. *)
Definition find_session (current_timetable : option Timetable.t)
    (day : string) (time_slot : TimeSlot.t) : option ClassSession.t :=
  match current_timetable with
  | None => None
  | Some timetable =>
      List.find
        (λ session,
           String.eqb (ClassSession.day session) day
           && String.eqb (TimeSlot.start_time (ClassSession.time_slot session))
                (TimeSlot.start_time time_slot)
           && String.eqb (TimeSlot.end_time (ClassSession.time_slot session))
                (TimeSlot.end_time time_slot))
        (Timetable.sessions timetable)
  end.

(** [subject_counts] of [update_overview]: a dict from subject code to a
    count and a subject, in the order the codes were first met. *)
Definition counts : Type := list (string * (nat * Subject.t)).

Definition has_code (code : string) (subject_counts : counts) : bool :=
  existsb (λ kv, String.eqb kv.1 code) subject_counts.

(** [subject_counts[code]['count'] += 1] *)
Fixpoint increment (code : string) (subject_counts : counts) : counts :=
  match subject_counts with
  | [] => []
  | (k, (n, subject)) :: rest =>
      if String.eqb k code then (k, (S n, subject)) :: rest
      else (k, (n, subject)) :: increment code rest
  end.

(** One turn of the first loop. *)
Definition count_session (subject_counts : counts) (session : ClassSession.t)
    : counts :=
  let subject_code := Subject.code (ClassSession.subject session) in
  let subject_counts :=
    if has_code subject_code subject_counts then subject_counts
    else subject_counts ++ [(subject_code, (0%nat, ClassSession.subject session))] in
  increment subject_code subject_counts.

Definition subject_counts (timetable : Timetable.t) : counts :=
  fold_left count_session (Timetable.sessions timetable) [].

(** One turn of the second loop; of the set [unique_subjects] only
    membership is asked. *)
Definition add_credits (st : Z * list string) (session : ClassSession.t)
    : Z * list string :=
  let '(total_credits, unique_subjects) := st in
  let code := Subject.code (ClassSession.subject session) in
  if bool_decide (code ∈ unique_subjects) then st
  else (total_credits + Subject.credits (ClassSession.subject session),
        code :: unique_subjects).

Definition total_credits (timetable : Timetable.t) : Z :=
  (fold_left add_credits (Timetable.sessions timetable) (0, [])).1.

(** The numbers of the weekly distribution. *)
Definition weekly_distribution `{StrLower} (timetable : Timetable.t)
    : list (string * nat) :=
  map (λ day, (day, length (Timetable.get_sessions_by_day timetable day)))
    WEEKDAYS.

(** [edit_session_dialog] once the dialog has closed with [result]. *)
Definition edit_session (session : ClassSession.t)
    (result : option ClassSession.t) (current_timetable : Timetable.t)
    (c : clock) : Timetable.t * clock :=
  match result with
  | Some updated =>
      let '(timetable, c) :=
        Timetable.remove_session session current_timetable c in
      Timetable.add_session updated timetable c
  | None => (current_timetable, c)
  end.
End ModernTimetableApp.

(** * Vocabulary of the properties *)

(** [k in v] for a mapping [v]. *)
Definition has_key (k : string) (v : value) : Prop :=
  ∃ d x, v = VDict d ∧ lookup_key k d = Some x.

(** Two characters that are the same letter: equal, or a capital [A]..[Z]
    and the small letter 32 places further. *)
Definition is_upper (c : ascii) : Prop :=
  (65 ≤ N_of_ascii c ∧ N_of_ascii c ≤ 90)%N.

Definition same_letter (c1 c2 : ascii) : Prop :=
  c1 = c2
  ∨ (is_upper c1 ∧ N_of_ascii c2 = N_of_ascii c1 + 32)%N
  ∨ (is_upper c2 ∧ N_of_ascii c1 = N_of_ascii c2 + 32)%N.

(** Two strings that differ at most in the case of their letters. *)
Inductive eq_ignore_case : string → string → Prop :=
| eic_empty : eq_ignore_case "" ""
| eic_letter c1 c2 s1 s2 :
    same_letter c1 c2 → eq_ignore_case s1 s2 →
    eq_ignore_case (String c1 s1) (String c2 s2).

(** [selects P l r]: [r] is made of exactly the items of [l] that satisfy
    [P], each as often as in [l] and in the order of [l]. *)
Inductive selects {A} (P : A → Prop) : list A → list A → Prop :=
| selects_nil : selects P [] []
| selects_keep x l r : P x → selects P l r → selects P (x :: l) (x :: r)
| selects_drop x l r : ¬ P x → selects P l r → selects P (x :: l) r.

(** [e['name'] == n], false also when the subscript raises. *)
Definition name_is (n : string) (e : value) : bool :=
  match subscript e "name" with
  | Ok v => eq_str v n
  | Raise _ => false
  end.

(** An entry the loops of the gateway get past: it has a name, and the name
    is not [n]. *)
Definition other_name (n : string) (e : value) : Prop :=
  has_key "name" e ∧ name_is n e = false.

(** The test of the comprehension of [delete_timetable]. *)
Definition not_named (n : string) (e : value) : bool := negb (name_is n e).

(** A string that the writer leaves unquoted. *)
Definition plain (s : string) : Prop := needs_quotes s = false.

(** The two operations that write the collection. *)
Inductive op : Type :=
| SaveTimetable (timetable : Timetable.t)
| DeleteTimetable (name : string).

Definition run (o : op) (w : io) (dm : DataManager.t) : bool * DataManager.t :=
  match o with
  | SaveTimetable timetable => DataManager.save_timetable w timetable dm
  | DeleteTimetable name => DataManager.delete_timetable w name dm
  end.

(** The data directories that sequences of successful saves and deletes
    lead to from the empty one. *)
Inductive reachable : DataManager.t → Prop :=
| reachable_empty : reachable DataManager.empty
| reachable_step dm o w dm' :
    reachable dm → run o w dm = (true, dm') → reachable dm'.

(** No two entries of the stored collection have the same name. *)
Definition no_duplicate_names (dm : DataManager.t) : Prop :=
  ∃ l,
    DataManager.load_all_timetables dm = VList l
    ∧ Forall (has_key "name") l
    ∧ ∀ i j e1 e2 v,
        l !! i = Some e1 → l !! j = Some e2 →
        subscript e1 "name" = Ok v → subscript e2 "name" = Ok v → i = j.

(** Replacing every entry of a name, and removing the first one, as
    opposed to what [save_timetable] and [delete_timetable] do. *)
Definition replace_every (n : string) (d : value) (l : list value)
    : list value :=
  map (λ e, if name_is n e then d else e) l.

Fixpoint remove_first (n : string) (l : list value) : list value :=
  match l with
  | [] => []
  | e :: rest => if name_is n e then rest else e :: remove_first n rest
  end.

(** The collection is the image of timetables with distinct names. *)
Definition stores (dm : DataManager.t) (ts : list Timetable.t) : Prop :=
  DataManager.load_all_timetables dm = VList (map Timetable.to_dict ts)
  ∧ NoDup (map Timetable.name ts).

(** The two calls that change the sessions of a timetable. *)
Inductive edit : Type :=
| AddSession (session : ClassSession.t)
| RemoveSession (session : ClassSession.t).

Definition apply_edit (st : Timetable.t * clock) (e : edit)
    : Timetable.t * clock :=
  match e with
  | AddSession session => Timetable.add_session session st.1 st.2
  | RemoveSession session => Timetable.remove_session session st.1 st.2
  end.

Definition apply_edits (es : list edit) (st : Timetable.t * clock)
    : Timetable.t * clock :=
  fold_left apply_edit es st.

(** A key of the mapping that is no field of [Subject]. *)
Definition unknown_key (d : list (string * value)) : Prop :=
  ∃ k v, (k, v) ∈ d ∧ k ∉ Subject.fields.

(** [e['name']] for an entry that has the key. *)
Definition stored_name (e : value) : value :=
  match subscript e "name" with
  | Ok v => v
  | Raise _ => VNone
  end.

(** A stored subject that the constructor refuses: no mapping, a mapping
    with a key that is no field, or one without [name] or [code]. *)
Definition refused_subject (sd : value) : Prop :=
  ∀ d, sd = VDict d →
       unknown_key d ∨ lookup_key "name" d = None ∨ lookup_key "code" d = None.

(** The row of a subject code in the counts, the number of sessions the
    counts add up to, and the credits of their subjects. *)
Definition entry (code : string) (acc : ModernTimetableApp.counts)
    : option (string * (nat * Subject.t)) :=
  List.find (λ kv, String.eqb kv.1 code) acc.

(** A row with its count increased by one. *)
Definition bump (kv : string * (nat * Subject.t))
    : string * (nat * Subject.t) :=
  (kv.1, (S kv.2.1, kv.2.2)).

Definition counted (acc : ModernTimetableApp.counts) : nat :=
  sum_list (map (λ kv, kv.2.1) acc).

Definition credits_sum (acc : ModernTimetableApp.counts) : Z :=
  fold_right Z.add 0 (map (λ kv, Subject.credits kv.2.2) acc).

(** A string of ASCII characters. *)
Definition is_ascii_char (c : ascii) : Prop := (N_of_ascii c < 128)%N.

Fixpoint is_ascii (s : string) : Prop :=
  match s with
  | EmptyString => True
  | String c rest => is_ascii_char c ∧ is_ascii rest
  end.

(** The one fact about [str.lower()] that the properties below rely on
    where they say so: on ASCII strings it is [ascii_lower]. *)
Definition lower_on_ascii `{StrLower} : Prop :=
  ∀ s, is_ascii s → lower s = ascii_lower s.

(** A [str.lower()] that knows no letters beyond ASCII, to show that the
    fact can be met. *)
Definition ascii_only : StrLower := ascii_lower.

(** A session on one of the six days of [WEEKDAYS], up to [str.lower()]. *)
Definition is_weekday `{StrLower} (s : ClassSession.t) : Prop :=
  ∃ d, d ∈ WEEKDAYS ∧ lower (ClassSession.day s) = lower d.

(** The same as a test. *)
Definition weekday_test `{StrLower} (s : ClassSession.t) : bool :=
  existsb (λ d, String.eqb (lower (ClassSession.day s)) (lower d)) WEEKDAYS.

(** The string that a keyword with a default receives: the stored string,
    or the default when the key is absent. *)
Definition str_or (dflt : string) (o : option value) : option string :=
  match o with
  | None => Some dflt
  | Some (VStr s) => Some s
  | Some _ => None
  end.

(** ** A running example: the scenario of the specification *)

Module Example.
Definition intro_cs : Subject.t :=
  Subject.mk "Intro CS" "CS101" 3 "" "#3b82f6".

Definition algebra : Subject.t :=
  Subject.mk "Algebra" "MA201" 4 "Dr. Noether" "#ef4444".

Definition monday_9 : ClassSession.t :=
  ClassSession.mk intro_cs "Monday" (TimeSlot.mk "09:00" "10:00")
    "101" "Lecture" "".

Definition tuesday_10 : ClassSession.t :=
  ClassSession.mk algebra "Tuesday" (TimeSlot.mk "10:00" "11:00")
    "B12" "Tutorial" "bring notes".

(** A timetable created on the first of September and last changed on the
    second. *)
Definition fall : Timetable.t :=
  Timetable.mk "Fall" "2024F" [monday_9]
    "2024-09-01T08:00:00" "2024-09-02T10:30:00".

(** A clock whose readings are all in mid October. *)
Definition october : clock := λ n,
  match n with
  | O => "2024-10-15T12:00:00"
  | 1%nat => "2024-10-15T12:00:01"
  | _ => "2024-10-15T12:00:02"
  end.
End Example.

Module AddRemoveExample.
Import Example.

Definition two_sessions : Timetable.t :=
  Timetable.mk "Fall" "2024F" [monday_9; tuesday_10]
    "2024-09-01T08:00:00" "2024-09-02T10:30:00".

(** [add_session(monday_9)], then [remove_session(monday_9)]. *)
Definition after_add_remove : Timetable.t :=
  let '(t1, c1) := Timetable.add_session monday_9 two_sessions october in
  (Timetable.remove_session monday_9 t1 c1).1.
End AddRemoveExample.

Module StoreExample.
Import Example.

Definition spring : Timetable.t :=
  Timetable.mk "Spring" "2025S" [tuesday_10]
    "2025-01-10T09:00:00" "2025-01-11T09:00:00".

(** The timetable [fall] with a second session. *)
Definition fall_two : Timetable.t :=
  Timetable.mk "Fall" "2024F" [monday_9; tuesday_10]
    "2024-09-01T08:00:00" "2024-09-20T16:45:00".

(** A data directory in which [fall] and [spring] have been saved. *)
Definition saved : DataManager.t :=
  (DataManager.save_timetable IoOk spring
     (DataManager.save_timetable IoOk fall DataManager.empty).2).2.

Definition resaved : DataManager.t :=
  (DataManager.save_timetable IoOk fall_two saved).2.

Definition deleted : DataManager.t :=
  (DataManager.delete_timetable IoOk "Fall" saved).2.
End StoreExample.

Module RejectExample.
(** A mapping whose second session has no day. *)
Definition no_day : value :=
  VDict [("name", VStr "Fall"); ("semester", VStr "2024F");
         ("sessions",
          VList [Timetable.session_to_dict Example.monday_9;
                 VDict [("subject", Subject.asdict Example.algebra);
                        ("time_slot",
                         TimeSlot.asdict (TimeSlot.mk "10:00" "11:00"))]])].
End RejectExample.

Module GatewayExample.
(** A collection whose second entry has lost its name. *)
Definition nameless : value := VDict [("semester", VStr "2025S")].

Definition broken : DataManager.t :=
  DataManager.set_timetables_file
    (Holds (VList [Timetable.to_dict Example.fall; nameless]))
    DataManager.empty.

(** A directory whose collection cannot be read. *)
Definition corrupt : DataManager.t :=
  DataManager.set_timetables_file Unreadable DataManager.empty.
End GatewayExample.

Module SubjectsExample.
(** Two subjects on file, the second without its code. *)
Definition half_written : DataManager.t :=
  DataManager.set_subjects_file
    (Holds (VList [DataManager.subject_to_dict Example.intro_cs;
                   VDict [("name", VStr "Algebra")]]))
    DataManager.empty.
End SubjectsExample.

(** * Properties *)

(** ** Conversion to and from mappings *)

Section RoundTrip.

Lemma Subject_kwargs_asdict (s : Subject.t) :
  Subject.kwargs (Subject.asdict s) = Ok (Typed s).
Proof. by destruct s. Qed.

Lemma TimeSlot_kwargs_asdict (ts : TimeSlot.t) :
  TimeSlot.kwargs (TimeSlot.asdict ts) = Ok (Typed ts).
Proof. by destruct ts. Qed.

Lemma session_from_dict_to_dict (s : ClassSession.t) :
  Timetable.session_from_dict (Timetable.session_to_dict s) = Ok (Typed s).
Proof.
  by destruct s as [[] d [] r ty n].
Qed.

Lemma sessions_from_dicts_to_dicts (l : list ClassSession.t) :
  Timetable.sessions_from_dicts (map Timetable.session_to_dict l)
  = Ok (map Typed l).
Proof.
  induction l as [|s l IH]; [done|].
  cbn [map Timetable.sessions_from_dicts].
  by rewrite session_from_dict_to_dict, IH.
Qed.

Lemma all_typed_map_Typed {A} (l : list A) : all_typed (map Typed l) = Typed l.
Proof. induction l as [|a l IH]; [done|]. cbn. by rewrite IH. Qed.

(** Reading back what [to_dict] wrote is the constructor applied to the
    five fields. *)
Lemma from_dict_to_dict_init (t : Timetable.t) (c : clock) :
  Timetable.from_dict (Timetable.to_dict t) c
  = Ok (Typed (Timetable.__init__ (Timetable.name t) (Timetable.semester t)
                 (Timetable.sessions t) (Timetable.created_date t)
                 (Timetable.last_modified t) c)).
Proof.
  destruct t as [n sem l cd lm].
  unfold Timetable.from_dict, Timetable.to_dict; cbn.
  rewrite sessions_from_dicts_to_dicts; cbn.
  by rewrite all_typed_map_Typed.
Qed.

(** What the constructor keeps and what it stamps. *)
Lemma init_fields n sem l cd lm (c : clock) :
  let t := (Timetable.__init__ n sem l cd lm c).1 in
  Timetable.name t = n ∧ Timetable.semester t = sem ∧ Timetable.sessions t = l
  ∧ Timetable.created_date t = (if bool_decide (cd = "") then c 0%nat else cd)
  ∧ Timetable.last_modified t
    = (if bool_decide (cd = "") then c 1%nat else c 0%nat).
Proof.
  unfold Timetable.__init__, Timetable.__post_init__; cbn.
  by case_bool_decide.
Qed.

Lemma from_dict_to_dict_fields (t : Timetable.t) (c : clock) :
  ∃ t' c',
    Timetable.from_dict (Timetable.to_dict t) c = Ok (Typed (t', c'))
    ∧ Timetable.name t' = Timetable.name t
    ∧ Timetable.semester t' = Timetable.semester t
    ∧ Timetable.sessions t' = Timetable.sessions t
    ∧ (Timetable.created_date t ≠ "" →
       Timetable.created_date t' = Timetable.created_date t
       ∧ Timetable.last_modified t' = c 0%nat).
Proof.
  rewrite from_dict_to_dict_init.
  pose proof (init_fields (Timetable.name t) (Timetable.semester t)
                (Timetable.sessions t) (Timetable.created_date t)
                (Timetable.last_modified t) c) as H.
  destruct (Timetable.__init__ _ _ _ _ _ c) as [t' c'] eqn:E.
  exists t', c'. cbn in H. destruct H as (?&?&?&Hc&Hl).
  repeat split; try done.
  - rewrite Hc. by case_bool_decide.
  - rewrite Hl. by case_bool_decide.
Qed.

End RoundTrip.

(** C1 at a timetable last changed in September and read back in October:
    [from_dict (to_dict t)] keeps the name, the semester, the sessions and
    the creation date, but its [last_modified] is the reading of the clock at
    the time of the reload, not the stored one. *)
Theorem from_dict_to_dict_restamps_last_modified :
  ∃ t' c',
    Timetable.from_dict (Timetable.to_dict Example.fall) Example.october
    = Ok (Typed (t', c'))
    ∧ Timetable.name t' = Timetable.name Example.fall
    ∧ Timetable.semester t' = Timetable.semester Example.fall
    ∧ Timetable.sessions t' = Timetable.sessions Example.fall
    ∧ Timetable.created_date t' = Timetable.created_date Example.fall
    ∧ Timetable.last_modified Example.fall = "2024-09-02T10:30:00"
    ∧ Timetable.last_modified t' = "2024-10-15T12:00:00".
Proof. eexists _, _. by repeat split. Qed.

(** The same for every timetable: the stored [last_modified] never comes
    back, the clock decides it. *)
Lemma from_dict_to_dict_last_modified (t : Timetable.t) (c : clock) :
  ∃ t' c',
    Timetable.from_dict (Timetable.to_dict t) c = Ok (Typed (t', c'))
    ∧ Timetable.last_modified t'
      = (if bool_decide (Timetable.created_date t = "") then c 1%nat
         else c 0%nat).
Proof.
  rewrite from_dict_to_dict_init.
  pose proof (init_fields (Timetable.name t) (Timetable.semester t)
                (Timetable.sessions t) (Timetable.created_date t)
                (Timetable.last_modified t) c) as H.
  destruct (Timetable.__init__ _ _ _ _ _ c) as [t' c'].
  exists t', c'. cbn in H. by destruct H as (_&_&_&_&->).
Qed.

(** ** Loading mappings with missing keys *)

Lemma subscript_Ok v k x : subscript v k = Ok x → has_key k v.
Proof.
  destruct v; try done. cbn.
  destruct (lookup_key k d) as [y|] eqn:E; [|done].
  intros [= <-]. by exists d, y.
Qed.

Lemma get_missing v k dflt x :
  get v k dflt = Ok x → ¬ has_key k v → x = dflt.
Proof.
  destruct v; try done. cbn. intros [= <-] Hk.
  destruct (lookup_key k d) as [y|] eqn:E; [|done].
  destruct Hk. by exists d, y.
Qed.

Ltac bind_cases H :=
  repeat match type of H with
    | (mbind _ ?m) = _ =>
        let E := fresh "E" in
        destruct m eqn:E; cbn [mbind result_bind] in H; [|discriminate H]
    | (match ?m with Ok _ => _ | Raise _ => _ end) = _ =>
        let E := fresh "E" in
        destruct m eqn:E; [|discriminate H]
    end.

Ltac raise_cases :=
  repeat match goal with
    | |- raises (mbind _ ?m) =>
        let E := fresh "E" in
        destruct m eqn:E; cbn [mbind result_bind]; [|by eexists]
    end.

Section MissingKeys.

Lemma session_from_dict_defaults sd s :
  Timetable.session_from_dict sd = Ok (Typed s) →
  (¬ has_key "room" sd → ClassSession.room s = "")
  ∧ (¬ has_key "session_type" sd → ClassSession.session_type s = "Lecture")
  ∧ (¬ has_key "notes" sd → ClassSession.notes s = "").
Proof.
  unfold Timetable.session_from_dict. intros H. bind_cases H.
  injection H as H.
  destruct a0 as [subj|]; [|done]. destruct (as_str a3) as [d|]; [|done].
  destruct a2 as [ts|]; [|done]. cbn in H.
  destruct (as_str a4) as [r|] eqn:Er; [|done].
  destruct (as_str a5) as [ty|] eqn:Ety; [|done].
  destruct (as_str a6) as [n|] eqn:En; [|done].
  cbn in H. injection H as <-. cbn.
  repeat split; intros Hk.
  - rewrite (get_missing _ _ _ _ E4 Hk) in Er. by injection Er.
  - rewrite (get_missing _ _ _ _ E5 Hk) in Ety. by injection Ety.
  - rewrite (get_missing _ _ _ _ E6 Hk) in En. by injection En.
Qed.

Lemma sessions_from_dicts_Forall2 items l :
  Timetable.sessions_from_dicts items = Ok l →
  Forall2 (λ sd s, Timetable.session_from_dict sd = Ok s) items l.
Proof.
  revert l. induction items as [|sd items IH]; intros l H; cbn in H.
  - injection H as <-. constructor.
  - bind_cases H. injection H as <-. constructor; auto.
Qed.

Lemma all_typed_Forall2 {A} (l : list (dyn A)) (l' : list A) :
  all_typed l = Typed l' → Forall2 (λ x a, x = Typed a) l l'.
Proof.
  revert l'. induction l as [|x l IH]; intros l' H; cbn in H.
  - injection H as <-. constructor.
  - destruct x as [a|]; [|done]. cbn in H.
    destruct (all_typed l) as [r|]; [|done]. cbn in H.
    injection H as <-. constructor; auto.
Qed.

Lemma from_dict_inv data c t c' :
  Timetable.from_dict data c = Ok (Typed (t, c')) →
  has_key "name" data ∧ has_key "semester" data
  ∧ ∃ sv items cd lm,
      get data "sessions" (VList []) = Ok sv
      ∧ iterate sv = Ok items
      ∧ Forall2 (λ sd s, Timetable.session_from_dict sd = Ok (Typed s))
          items (Timetable.sessions t)
      ∧ get data "created_date" (VStr "") = Ok (VStr cd)
      ∧ get data "last_modified" (VStr "") = Ok (VStr lm)
      ∧ (t, c') = Timetable.__init__ (Timetable.name t) (Timetable.semester t)
                    (Timetable.sessions t) cd lm c.
Proof.
  unfold Timetable.from_dict. intros H. bind_cases H.
  injection H as H.
  destruct (all_typed a1) as [l|] eqn:El; [|done]. cbn in H.
  destruct a2 as [| | |n| |]; try done.
  destruct a3 as [| | |sem| |]; try done.
  destruct a4 as [| | |cd| |]; try done.
  destruct a5 as [| | |lm| |]; try done.
  cbn in H. injection H as H.
  pose proof (init_fields n sem l cd lm c) as F. rewrite H in F. cbn in F.
  destruct F as (->&->&->&_).
  split; [by eapply subscript_Ok|]. split; [by eapply subscript_Ok|].
  exists a, a0, cd, lm. repeat split; try done.
  apply sessions_from_dicts_Forall2 in E1. apply all_typed_Forall2 in El.
  clear -E1 El. revert l El.
  induction E1 as [|sd x items xs Hx _ IH]; intros l El.
  - inversion El. constructor.
  - inversion El as [|? s ? l' -> Hl']; subst. constructor; auto.
Qed.

Lemma from_dict_missing_key data c :
  ¬ has_key "name" data ∨ ¬ has_key "semester" data →
  raises (Timetable.from_dict data c).
Proof.
  intros Hk. unfold Timetable.from_dict. raise_cases.
  destruct Hk as [[]|[]]; by eapply subscript_Ok.
Qed.

End MissingKeys.

Section Defaults.

Lemma sessions_from_dicts_Ok items (sessions : list ClassSession.t) :
  Forall2 (λ sd s, Timetable.session_from_dict sd = Ok (Typed s))
    items sessions →
  Timetable.sessions_from_dicts items = Ok (map Typed sessions).
Proof.
  induction 1 as [|sd s items sessions Hs _ IH]; [done|].
  cbn [Timetable.sessions_from_dicts map]. by rewrite Hs, IH.
Qed.

Lemma str_or_as_str dflt o r :
  str_or dflt o = Some r → as_str (default (VStr dflt) o) = Typed r.
Proof. destruct o as [[| | |s| |]|]; cbn; by intros [= <-]. Qed.

End Defaults.

(** C7 fails for the timestamps: a mapping with a name and a semester only
    loads into a timetable whose [created_date] and [last_modified] are the
    two readings of the clock, not the empty string. *)
Lemma from_dict_stamps_missing_timestamps :
  ∃ t c',
    Timetable.from_dict
      (VDict [("name", VStr "Fall"); ("semester", VStr "2024F")])
      Example.october
    = Ok (Typed (t, c'))
    ∧ Timetable.created_date t = "2024-10-15T12:00:00"
    ∧ Timetable.last_modified t = "2024-10-15T12:00:01"
    ∧ Timetable.created_date t ≠ ""
    ∧ Timetable.last_modified t ≠ "".
Proof. eexists _, _. by repeat split. Qed.

(** C7, amended.  A session mapping that has a subject, a day and a time
    slot loads, with the stored room, type and notes, and with the empty
    string for an absent room, [Lecture] for an absent type and the empty
    string for absent notes.  A mapping that has a name and a semester and
    whose sessions load, loads: without a [sessions] key it has no session,
    without a [created_date] key its creation date is the reading of the
    clock at the load, and without a [last_modified] key its
    [last_modified] is the next reading.  A mapping that lacks [name] or
    [semester] makes [from_dict] raise, whatever else it holds. *)
Theorem from_dict_fills_defaults :
  (∀ d sv subject tv time_slot day room session_type notes,
     lookup_key "subject" d = Some sv →
     Subject.kwargs sv = Ok (Typed subject) →
     lookup_key "time_slot" d = Some tv →
     TimeSlot.kwargs tv = Ok (Typed time_slot) →
     lookup_key "day" d = Some (VStr day) →
     str_or "" (lookup_key "room" d) = Some room →
     str_or "Lecture" (lookup_key "session_type" d) = Some session_type →
     str_or "" (lookup_key "notes" d) = Some notes →
     Timetable.session_from_dict (VDict d)
     = Ok (Typed (ClassSession.mk subject day time_slot room session_type
                    notes))
     ∧ (lookup_key "room" d = None → room = "")
     ∧ (lookup_key "session_type" d = None → session_type = "Lecture")
     ∧ (lookup_key "notes" d = None → notes = ""))
  ∧ (∀ d c n sem items sessions cd,
       lookup_key "name" d = Some (VStr n) →
       lookup_key "semester" d = Some (VStr sem) →
       iterate (default (VList []) (lookup_key "sessions" d)) = Ok items →
       Forall2 (λ sd s, Timetable.session_from_dict sd = Ok (Typed s))
         items sessions →
       str_or "" (lookup_key "created_date" d) = Some cd →
       (lookup_key "last_modified" d = None
        ∨ ∃ lm, lookup_key "last_modified" d = Some (VStr lm)) →
       ∃ t c',
         Timetable.from_dict (VDict d) c = Ok (Typed (t, c'))
         ∧ Timetable.name t = n
         ∧ Timetable.semester t = sem
         ∧ Timetable.sessions t = sessions
         ∧ (lookup_key "sessions" d = None → Timetable.sessions t = [])
         ∧ (cd ≠ "" → Timetable.created_date t = cd)
         ∧ (lookup_key "created_date" d = None →
            Timetable.created_date t = c 0%nat)
         ∧ (lookup_key "created_date" d = None →
            lookup_key "last_modified" d = None →
            Timetable.last_modified t = c 1%nat)
         ∧ (cd ≠ "" → lookup_key "last_modified" d = None →
            Timetable.last_modified t = c 0%nat))
  ∧ (∀ data c,
       ¬ has_key "name" data ∨ ¬ has_key "semester" data →
       raises (Timetable.from_dict data c)).
Proof.
  split; [|split; [|apply from_dict_missing_key]].
  - intros d sv subject tv time_slot day room session_type notes
      Hsv Hsubj Htv Hts Hday Hroom Hty Hnotes.
    split.
    + unfold Timetable.session_from_dict, subscript, get.
      rewrite Hsv. cbn [mbind result_bind]. rewrite Hsubj, Htv.
      cbn [mbind result_bind]. rewrite Hts, Hday. cbn [mbind result_bind].
      rewrite (str_or_as_str _ _ _ Hroom), (str_or_as_str _ _ _ Hty),
        (str_or_as_str _ _ _ Hnotes). done.
    + repeat split; intros E; rewrite E in *; cbn in *; congruence.
  - intros d c n sem items sessions cd Hn Hsem Hit HF Hcd Hlm.
    assert (∃ lm, Timetable.from_dict (VDict d) c
                  = Ok (Typed (Timetable.__init__ n sem sessions cd lm c)))
      as [lm Hfd].
    { unfold Timetable.from_dict, subscript, get.
      cbn [mbind result_bind]. rewrite Hit. cbn [mbind result_bind].
      rewrite (sessions_from_dicts_Ok _ _ HF), Hn, Hsem.
      cbn [mbind result_bind]. rewrite all_typed_map_Typed.
      rewrite (str_or_as_str _ _ _ Hcd). cbn [mbind dyn_bind as_str].
      destruct Hlm as [->|[lm ->]]; cbn; by eexists. }
    pose proof (init_fields n sem sessions cd lm c) as F.
    destruct (Timetable.__init__ n sem sessions cd lm c) as [t c'].
    cbn in F. destruct F as (Fn&Fs&Fss&Fc&Fl).
    exists t, c'. split; [done|]. split; [done|]. split; [done|].
    split; [done|]. split.
    { intros E. rewrite E in Hit. cbn in Hit. injection Hit as <-.
      inversion HF; subst. done. }
    split; [intros E; rewrite Fc; by rewrite bool_decide_eq_false_2|].
    split.
    { intros E. rewrite E in Hcd. cbn in Hcd. injection Hcd as <-.
      by rewrite Fc. }
    split.
    { intros E _. rewrite E in Hcd. cbn in Hcd. injection Hcd as <-.
      by rewrite Fl. }
    intros E _. rewrite Fl. by rewrite bool_decide_eq_false_2.
Qed.

(** ** Sessions of a day *)

Section ByDay.

Lemma N_of_ascii_inj c1 c2 : N_of_ascii c1 = N_of_ascii c2 → c1 = c2.
Proof.
  intros H. rewrite <-(ascii_N_embedding c1), <-(ascii_N_embedding c2).
  by rewrite H.
Qed.

Lemma N_of_ascii_lower_char c :
  N_of_ascii (ascii_lower_char c)
  = (if (65 <=? N_of_ascii c) && (N_of_ascii c <=? 90)
     then N_of_ascii c + 32 else N_of_ascii c)%N.
Proof.
  unfold ascii_lower_char. pose proof (N_ascii_bounded c) as Hb.
  destruct ((65 <=? N_of_ascii c) && (N_of_ascii c <=? 90))%N eqn:E; [|done].
  apply andb_prop in E as [_ E%N.leb_le].
  apply N_ascii_embedding. lia.
Qed.

Lemma ascii_lower_char_same_letter c1 c2 :
  ascii_lower_char c1 = ascii_lower_char c2 ↔ same_letter c1 c2.
Proof.
  unfold same_letter, is_upper. split.
  - intros H%(f_equal N_of_ascii). rewrite !N_of_ascii_lower_char in H.
    destruct (65 <=? N_of_ascii c1)%N eqn:A1,
             (N_of_ascii c1 <=? 90)%N eqn:B1,
             (65 <=? N_of_ascii c2)%N eqn:A2,
             (N_of_ascii c2 <=? 90)%N eqn:B2; cbn in H;
      rewrite ?N.leb_le, ?N.leb_gt in *;
      first [ left; apply N_of_ascii_inj; lia
            | right; left; lia
            | right; right; lia ].
  - intros H. apply N_of_ascii_inj. rewrite !N_of_ascii_lower_char.
    destruct H as [->|[[[? ?] H]|[[? ?] H]]]; [done|..];
      destruct (65 <=? N_of_ascii c1)%N eqn:A1,
               (N_of_ascii c1 <=? 90)%N eqn:B1,
               (65 <=? N_of_ascii c2)%N eqn:A2,
               (N_of_ascii c2 <=? 90)%N eqn:B2; cbn;
      rewrite ?N.leb_le, ?N.leb_gt in *; lia.
Qed.

Lemma ascii_lower_eq_ignore_case s1 s2 :
  ascii_lower s1 = ascii_lower s2 ↔ eq_ignore_case s1 s2.
Proof.
  split.
  - revert s2. induction s1 as [|c1 s1 IH]; intros [|c2 s2] H; try done.
    + constructor.
    + cbn in H. injection H as Hc Hs. constructor; [|by apply IH].
      by apply ascii_lower_char_same_letter.
  - induction 1 as [|c1 c2 s1 s2 Hc _ IH]; [done|].
    cbn. apply ascii_lower_char_same_letter in Hc. by rewrite Hc, IH.
Qed.

(** On ASCII strings, equal after [str.lower()] is equal up to the case of
    the letters. *)
Lemma lower_eq_ignore_case {L : StrLower} s1 s2 :
  lower_on_ascii → is_ascii s1 → is_ascii s2 →
  lower s1 = lower s2 ↔ eq_ignore_case s1 s2.
Proof.
  intros HL H1 H2. rewrite (HL s1 H1), (HL s2 H2).
  apply ascii_lower_eq_ignore_case.
Qed.

Lemma selects_filter {A} (P : A → Prop) (f : A → bool) (l : list A) :
  (∀ x, f x = true ↔ P x) → selects P l (List.filter f l).
Proof.
  intros Hf. induction l as [|x l IH]; cbn; [constructor|].
  destruct (f x) eqn:E.
  - apply selects_keep; [by apply Hf|done].
  - apply selects_drop; [|done]. rewrite <-Hf. by rewrite E.
Qed.

(** The relation leaves no freedom: it has one result. *)
Lemma selects_functional {A} (P : A → Prop) (l r1 r2 : list A) :
  selects P l r1 → selects P l r2 → r1 = r2.
Proof.
  intros H1. revert r2.
  induction H1 as [|x l r Hx _ IH|x l r Hx _ IH]; intros r2 H2;
    inversion H2 as [|? ? r' Hx' H'|? ? ? Hx' H']; subst; try done.
  - f_equal. by apply IH.
  - by apply IH.
Qed.

Lemma selects_sublist {A} (P : A → Prop) (l r : list A) :
  selects P l r → sublist r l.
Proof. induction 1; by constructor. Qed.

Lemma selects_elem_of {A} (P : A → Prop) (l r : list A) :
  selects P l r → ∀ x, x ∈ r ↔ x ∈ l ∧ P x.
Proof.
  induction 1 as [|y l r Hy _ IH|y l r Hy _ IH]; intros x.
  - split; [by intros ?%elem_of_nil|by intros [?%elem_of_nil _]].
  - rewrite !elem_of_cons, IH. intuition congruence.
  - rewrite elem_of_cons, IH. intuition congruence.
Qed.

End ByDay.



(** ** Adding and removing a session *)

Section AddRemove.
Context `{EqDecision A}.
Implicit Types (x : A) (l : list A).

Lemma list_remove_app_fresh x l : x ∉ l → list_remove x (l ++ [x]) = l.
Proof.
  induction l as [|y l IH]; cbn; intros Hx.
  - by rewrite decide_True.
  - apply not_elem_of_cons in Hx as [Hxy Hx].
    rewrite decide_False by done. by rewrite IH.
Qed.

Lemma list_remove_app_old x l l' :
  x ∈ l → list_remove x (l ++ l') = list_remove x l ++ l'.
Proof.
  induction l as [|y l IH]; cbn; intros Hx.
  - by apply elem_of_nil in Hx.
  - destruct (decide (y = x)) as [->|Hne]; [done|].
    apply elem_of_cons in Hx as [->|Hx]; [done|]. by rewrite IH.
Qed.

Lemma list_remove_Permutation x l : x ∈ l → list_remove x l ++ [x] ≡ₚ l.
Proof.
  induction l as [|y l IH]; cbn; intros Hx.
  - by apply elem_of_nil in Hx.
  - destruct (decide (y = x)) as [->|Hne].
    + by rewrite <-Permutation_cons_append.
    + apply elem_of_cons in Hx as [->|Hx]; [done|].
      cbn. by rewrite IH.
Qed.
End AddRemove.

(** C6 fails on a timetable that already holds the session: the copy that
    goes is the first one, the added one stays at the end, and the order of
    the list has changed. *)
Lemma add_then_remove_reorders :
  Timetable.sessions AddRemoveExample.two_sessions
  = [Example.monday_9; Example.tuesday_10]
  ∧ Timetable.sessions AddRemoveExample.after_add_remove
    = [Example.tuesday_10; Example.monday_9]
  ∧ Timetable.sessions AddRemoveExample.after_add_remove
    ≠ Timetable.sessions AddRemoveExample.two_sessions.
Proof. by repeat split. Qed.

(** C6, amended: [add_session s] followed by [remove_session] of an equal
    session gives the session list back when [s] was not in it before; when
    it was, the first occurrence is the one removed and [s] stays at the
    end, a permutation of the list before.  Each of the two calls sets
    [last_modified] to its own reading of the clock, and [remove_session] of
    a session that is not in the list changes nothing. *)
Theorem add_then_remove_session (t : Timetable.t) (s : ClassSession.t)
    (c : clock) :
  let r1 := Timetable.add_session s t c in
  let r2 := Timetable.remove_session s r1.1 r1.2 in
  (s ∉ Timetable.sessions t → Timetable.sessions r2.1 = Timetable.sessions t)
  ∧ (s ∈ Timetable.sessions t →
     Timetable.sessions r2.1 = list_remove s (Timetable.sessions t) ++ [s])
  ∧ Timetable.sessions r2.1 ≡ₚ Timetable.sessions t
  ∧ Timetable.last_modified r1.1 = c 0%nat
  ∧ Timetable.last_modified r2.1 = c 1%nat
  ∧ (∀ s' c0, s' ∉ Timetable.sessions t →
              Timetable.remove_session s' t c0 = (t, c0)).
Proof.
  destruct t as [n sem l cd lm]. cbn.
  unfold Timetable.remove_session; cbn.
  rewrite bool_decide_eq_true_2 by (apply elem_of_app; right; by apply list_elem_of_singleton).
  cbn. repeat split; try done.
  - apply list_remove_app_fresh.
  - apply list_remove_app_old.
  - destruct (decide (s ∈ l)) as [Hin|Hout].
    + rewrite list_remove_app_old by done. by apply list_remove_Permutation.
    + by rewrite list_remove_app_fresh.
  - intros s' c0 Hs'. by rewrite bool_decide_eq_false_2.
Qed.

(** ** The stored collection of timetables *)

Section Store.
Import DataManager.
Implicit Types (l : list value) (dm : DataManager.t) (t : Timetable.t).

Lemma name_is_to_dict t : name_is (Timetable.name t) (Timetable.to_dict t) = true.
Proof. unfold name_is; cbn. apply String.eqb_refl. Qed.

Lemma name_is_to_dict_iff n t :
  name_is n (Timetable.to_dict t) = true ↔ Timetable.name t = n.
Proof. unfold name_is; cbn. apply String.eqb_eq. Qed.

Lemma has_name_to_dict t : has_key "name" (Timetable.to_dict t).
Proof. by eapply subscript_Ok. Qed.

Lemma other_name_step n e :
  other_name n e → ∃ v, subscript e "name" = Ok v ∧ eq_str v n = false.
Proof.
  intros [(d&x&->&Hx) Hn]. unfold name_is in Hn. cbn in *.
  rewrite Hx in *. by exists x.
Qed.

Lemma find_existing_split n l1 e l2 i :
  Forall (other_name n) l1 → name_is n e = true →
  find_existing n (l1 ++ e :: l2) i = Ok (Some (i + length l1)%nat).
Proof.
  intros H1 He. revert i.
  induction H1 as [|x l1 Hx _ IH]; intros i; cbn [app length find_existing].
  - unfold name_is in He. destruct (subscript e "name"); [|done].
    cbn [mbind result_bind]. rewrite He. do 2 f_equal. lia.
  - destruct (other_name_step _ _ Hx) as (v&Hs&Hv). rewrite Hs.
    cbn [mbind result_bind]. rewrite Hv, IH. do 2 f_equal. lia.
Qed.

Lemma find_existing_absent n l i :
  Forall (other_name n) l → find_existing n l i = Ok None.
Proof.
  intros H. revert i.
  induction H as [|x l Hx _ IH]; intros i; cbn [find_existing]; [done|].
  destruct (other_name_step _ _ Hx) as (v&Hs&Hv). rewrite Hs.
  cbn [mbind result_bind]. rewrite Hv. apply IH.
Qed.

(** What a run of the loop that raises nothing has seen. *)
Lemma find_existing_inv n l i r :
  find_existing n l i = Ok r →
  match r with
  | Some j =>
      ∃ l1 e l2, l = l1 ++ e :: l2 ∧ j = (i + length l1)%nat
                 ∧ Forall (other_name n) l1 ∧ name_is n e = true
  | None => Forall (other_name n) l
  end.
Proof.
  revert i. induction l as [|x l IH]; intros i H; cbn in H.
  - injection H as <-. constructor.
  - destruct (subscript x "name") as [v|] eqn:Ex; [|done]. cbn in H.
    destruct (eq_str v n) eqn:Ev.
    + injection H as <-. exists [], x, l. cbn.
      unfold name_is. rewrite Ex. repeat split; [lia|constructor|done].
    + assert (other_name n x) as Hx.
      { split; [by eapply subscript_Ok|]. unfold name_is. by rewrite Ex. }
      apply IH in H. destruct r as [j|].
      * destruct H as (l1&e&l2&->&->&H1&He).
        exists (x :: l1), e, l2. cbn. repeat split; [lia|by constructor|done].
      * by constructor.
Qed.

(** A store that does not hold a list cannot be saved to. *)
Lemma find_existing_chars n s i :
  find_existing n (chars s) i = Ok None → s = "".
Proof. by destruct s. Qed.

Lemma updated_timetables_Ok t dm v :
  updated_timetables t dm = Ok v →
  ∃ l found,
    load_all_timetables dm = VList l
    ∧ find_existing (Timetable.name t) l 0 = Ok found
    ∧ v = VList match found with
                | Some i => <[i := Timetable.to_dict t]> l
                | None => l ++ [Timetable.to_dict t]
                end.
Proof.
  unfold updated_timetables. intros H.
  destruct (load_all_timetables dm) as [| | |s|l|d]; try done.
  - cbn in H. by destruct (find_existing _ _ _) as [[]|].
  - cbn in H. destruct (find_existing _ l _) as [found|] eqn:E; [|done].
    cbn in H. injection H as <-. by exists l, found.
  - cbn in H. by destruct (find_existing _ _ _) as [[]|].
Qed.

Lemma write_timetables_true w attempt dm dm' :
  write_timetables w attempt dm = (true, dm') →
  ∃ v, attempt = Ok v ∧ w = IoOk ∧ dm' = set_timetables_file (Holds v) dm.
Proof.
  unfold write_timetables. destruct attempt as [v|]; [|done].
  destruct w; [|done]. intros [= <-]. by exists v.
Qed.

(** The collection after a save that reported success. *)
Lemma save_timetable_true w t dm dm' :
  save_timetable w t dm = (true, dm') →
  ∃ l l',
    load_all_timetables dm = VList l
    ∧ dm' = set_timetables_file (Holds (VList l')) dm
    ∧ ((∃ l1 e l2, l = l1 ++ e :: l2 ∧ Forall (other_name (Timetable.name t)) l1
                   ∧ name_is (Timetable.name t) e = true
                   ∧ l' = l1 ++ Timetable.to_dict t :: l2)
       ∨ (Forall (other_name (Timetable.name t)) l
          ∧ l' = l ++ [Timetable.to_dict t])).
Proof.
  intros (v&Hv&_&->)%write_timetables_true.
  apply updated_timetables_Ok in Hv as (l&found&Hl&Hf&->).
  apply find_existing_inv in Hf. eexists l, _. split; [done|]. split; [done|].
  destruct found as [j|]; [left|right; done].
  destruct Hf as (l1&e&l2&->&->&H1&He). exists l1, e, l2.
  repeat split; try done. cbn.
  by rewrite insert_app_r_alt, Nat.sub_diag by lia.
Qed.

(** With well-formed entries and a write that goes through, the save
    succeeds. *)
Lemma save_timetable_succeeds t dm l :
  load_all_timetables dm = VList l → Forall (has_key "name") l →
  (save_timetable IoOk t dm).1 = true.
Proof.
  intros Hl Hk. unfold save_timetable, updated_timetables. rewrite Hl.
  assert (∀ i, ∃ r, find_existing (Timetable.name t) l i = Ok r) as Hr.
  { clear Hl. induction Hk as [|x l (d&v&->&Hv) _ IH]; intros i; cbn.
    - by eexists.
    - rewrite Hv; cbn. destruct (eq_str v _); [by eexists|apply IH]. }
  by destruct (Hr 0%nat) as [r ->].
Qed.

End Store.

Section SaveLoad.
Import DataManager.
Implicit Types (l : list value) (dm : DataManager.t) (t : Timetable.t).

(** The first item that satisfies a test splits a list in one way only. *)
Lemma first_split_unique {A} (f : A → bool) (l1 l1' l2 l2' : list A) e e' :
  l1 ++ e :: l2 = l1' ++ e' :: l2' →
  Forall (λ x, f x = false) l1 → f e = true →
  Forall (λ x, f x = false) l1' → f e' = true →
  l1 = l1' ∧ e = e' ∧ l2 = l2'.
Proof.
  intros Heq H1 He H1' He'. revert l1' Heq H1'.
  induction H1 as [|x l1 Hx _ IH]; intros [|x' l1'] Heq H1'; cbn in Heq.
  - by injection Heq as -> ->.
  - injection Heq as -> _. inversion H1'; congruence.
  - injection Heq as -> _. congruence.
  - injection Heq as -> Heq. inversion H1'; subst.
    destruct (IH _ Heq) as (->&->&->); done.
Qed.

Lemma other_name_not_named n l :
  Forall (other_name n) l → Forall (λ x, name_is n x = false) l.
Proof. intros H. eapply Forall_impl; [exact H|]. by intros x [_ ?]. Qed.

Lemma scan_timetables_split n l1 e l2 c :
  Forall (other_name n) l1 → name_is n e = true →
  scan_timetables n (l1 ++ e :: l2) c
  = (r ← Timetable.from_dict e c; Ok (Some r)).
Proof.
  intros H1 He.
  induction H1 as [|x l1 Hx _ IH]; cbn [app scan_timetables].
  - unfold name_is in He. destruct (subscript e "name"); [|done].
    cbn [mbind result_bind]. by rewrite He.
  - destruct (other_name_step _ _ Hx) as (v&Hs&Hv). rewrite Hs.
    cbn [mbind result_bind]. by rewrite Hv.
Qed.

End SaveLoad.

(** C2: after a [save_timetable t] that reported success, [load_timetable]
    with the name of [t] returns a timetable with the name, the semester and
    the sessions of [t]. *)
Theorem load_timetable_after_save (w : io) (t : Timetable.t)
    (dm dm' : DataManager.t) (c : clock) :
  DataManager.save_timetable w t dm = (true, dm') →
  ∃ t' c',
    DataManager.load_timetable (Timetable.name t) dm' c = Some (Typed (t', c'))
    ∧ Timetable.name t' = Timetable.name t
    ∧ Timetable.semester t' = Timetable.semester t
    ∧ Timetable.sessions t' = Timetable.sessions t.
Proof.
  intros (l&l'&_&->&Hl')%save_timetable_true.
  destruct (from_dict_to_dict_fields t c) as (t'&c'&Hf&Hn&Hs&Hss&_).
  exists t', c'. split; [|done].
  unfold DataManager.load_timetable. cbn [DataManager.load_all_timetables
    DataManager.set_timetables_file DataManager.timetables_file iterate
    mbind result_bind].
  destruct Hl' as [(l1&e&l2&_&H1&_&->)|(H1&->)];
    rewrite scan_timetables_split by (done || apply name_is_to_dict);
    by rewrite Hf.
Qed.

Lemma load_timetable_after_save_witness :
  ∃ t' c',
    DataManager.load_timetable "Fall" StoreExample.resaved Example.october
    = Some (Typed (t', c'))
    ∧ Timetable.name t' = "Fall"
    ∧ Timetable.semester t' = "2024F"
    ∧ Timetable.sessions t' = [Example.monday_9; Example.tuesday_10].
Proof.
  exact (load_timetable_after_save IoOk StoreExample.fall_two
           StoreExample.saved StoreExample.resaved Example.october eq_refl).
Defined.

(** C3: a [save_timetable t] that reported success has put the mapping of
    [t] in the place of the first stored entry with the name of [t], every
    other entry staying where it was, or at the end of the collection when
    no entry has that name; when an entry has the name, the collection is as
    long as before. *)
Theorem save_timetable_replaces_in_place (w : io) (t : Timetable.t)
    (dm dm' : DataManager.t) (l : list value) :
  DataManager.load_all_timetables dm = VList l →
  DataManager.save_timetable w t dm = (true, dm') →
  (∀ l1 e l2,
     l = l1 ++ e :: l2 →
     Forall (λ x, name_is (Timetable.name t) x = false) l1 →
     name_is (Timetable.name t) e = true →
     DataManager.load_all_timetables dm'
     = VList (l1 ++ Timetable.to_dict t :: l2))
  ∧ (Forall (λ x, name_is (Timetable.name t) x = false) l →
     DataManager.load_all_timetables dm' = VList (l ++ [Timetable.to_dict t]))
  ∧ (Exists (λ x, name_is (Timetable.name t) x = true) l →
     ∃ l', DataManager.load_all_timetables dm' = VList l'
           ∧ length l' = length l).
Proof.
  intros Hl (l0&l'&Hl0&->&Hl')%save_timetable_true.
  rewrite Hl in Hl0. injection Hl0 as <-. cbn.
  destruct Hl' as [(l1'&e'&l2'&->&H1'%other_name_not_named&He'&->)
                  |(H%other_name_not_named&->)].
  - split; [|split].
    + intros l1 e l2 Heq H1 He.
      by destruct (first_split_unique _ _ _ _ _ _ _ Heq H1' He' H1 He)
        as (->&_&->).
    + intros H. apply Forall_app in H as [_ H]. inversion H; congruence.
    + intros _. eexists. split; [done|]. by rewrite !length_app.
  - split; [|split].
    + intros l1 e l2 -> _ He.
      apply Forall_app in H as [_ H]. inversion H; congruence.
    + done.
    + intros (x&Hx&Hn)%Exists_exists.
      rewrite Forall_forall in H. rewrite (H x Hx) in Hn. done.
Qed.

Lemma save_timetable_replaces_in_place_witness :
  DataManager.load_all_timetables StoreExample.resaved
  = VList [Timetable.to_dict StoreExample.fall_two;
           Timetable.to_dict StoreExample.spring].
Proof.
  refine (proj1 (save_timetable_replaces_in_place IoOk StoreExample.fall_two
                   StoreExample.saved StoreExample.resaved
                   [Timetable.to_dict Example.fall;
                    Timetable.to_dict StoreExample.spring] eq_refl eq_refl)
            [] (Timetable.to_dict Example.fall)
            [Timetable.to_dict StoreExample.spring] eq_refl _ eq_refl).
  constructor.
Defined.

Section Delete.
Import DataManager.
Implicit Types (l : list value) (dm : DataManager.t).

Lemma not_named_subscript n e v :
  subscript e "name" = Ok v → not_named n e = negb (eq_str v n).
Proof. intros H. unfold not_named, name_is. by rewrite H. Qed.

Lemma keep_others_Ok n l kept :
  keep_others n l = Ok kept →
  Forall (has_key "name") l ∧ kept = List.filter (not_named n) l.
Proof.
  revert kept. induction l as [|e l IH]; intros kept H; cbn in H.
  - injection H as <-. by split.
  - destruct (subscript e "name") as [v|] eqn:Ev; [|done]. cbn in H.
    destruct (keep_others n l) as [k|]; [|done]. cbn in H.
    injection H as <-. destruct (IH k eq_refl) as [Hk ->].
    split; [constructor; [by eapply subscript_Ok|done]|].
    cbn [List.filter]. rewrite (not_named_subscript _ _ _ Ev).
    by destruct (eq_str v n).
Qed.

Lemma keep_others_total n l :
  Forall (has_key "name") l →
  keep_others n l = Ok (List.filter (not_named n) l).
Proof.
  induction 1 as [|e l (d&v&->&Hv) _ IH]; [done|].
  assert (subscript (VDict d) "name" = Ok v) as Ev by (cbn; by rewrite Hv).
  cbn [keep_others List.filter]. rewrite Ev, (not_named_subscript _ _ _ Ev).
  cbn [mbind result_bind]. rewrite IH. cbn [mbind result_bind].
  by destruct (eq_str v n).
Qed.

Lemma filter_has_name n l :
  Forall (has_key "name") l →
  Forall (has_key "name") (List.filter (not_named n) l).
Proof.
  induction 1 as [|e l He _ IH]; cbn; [constructor|].
  destruct (not_named n e); [by constructor|done].
Qed.

Lemma filter_twice {A} (f : A → bool) (l : list A) :
  List.filter f (List.filter f l) = List.filter f l.
Proof.
  induction l as [|x l IH]; [done|]. cbn.
  destruct (f x) eqn:E; [|done]. cbn. by rewrite E, IH.
Qed.

(** The collection after a delete that reported success. *)
Lemma delete_timetable_true w n dm dm' :
  delete_timetable w n dm = (true, dm') →
  ∃ items,
    iterate (load_all_timetables dm) = Ok items
    ∧ Forall (has_key "name") items
    ∧ dm' = set_timetables_file
              (Holds (VList (List.filter (not_named n) items))) dm.
Proof.
  intros (v&Hv&_&->)%write_timetables_true.
  destruct (iterate (load_all_timetables dm)) as [items|]; [|done].
  cbn in Hv. destruct (keep_others n items) as [kept|] eqn:Ek; [|done].
  cbn in Hv. injection Hv as <-.
  apply keep_others_Ok in Ek as [Hk ->]. by exists items.
Qed.

Lemma delete_timetable_list n dm l :
  load_all_timetables dm = VList l → Forall (has_key "name") l →
  delete_timetable IoOk n dm
  = (true, set_timetables_file (Holds (VList (List.filter (not_named n) l))) dm).
Proof.
  intros Hl Hk. unfold delete_timetable. rewrite Hl. cbn [iterate mbind result_bind].
  by rewrite keep_others_total.
Qed.

End Delete.

(** C4: a [delete_timetable] that reported success has left in the
    collection exactly the entries whose name is another one, each as it was
    and in the order it had; deleting the same name again succeeds and
    leaves the data directory as it is. *)
Theorem delete_timetable_removes_all (w : io) (name : string)
    (dm dm' : DataManager.t) (l : list value) :
  DataManager.load_all_timetables dm = VList l →
  DataManager.delete_timetable w name dm = (true, dm') →
  ∃ l',
    DataManager.load_all_timetables dm' = VList l'
    ∧ selects (λ e, name_is name e = false) l l'
    ∧ (∀ e, e ∈ l' ↔ e ∈ l ∧ name_is name e = false)
    ∧ DataManager.delete_timetable IoOk name dm' = (true, dm')
    ∧ (∀ w' dm'',
         DataManager.delete_timetable w' name dm' = (true, dm'') → dm'' = dm').
Proof.
  intros Hl (items&Hi&Hk&->)%delete_timetable_true.
  rewrite Hl in Hi. injection Hi as <-.
  assert (selects (λ e, name_is name e = false) l
            (List.filter (not_named name) l)) as S.
  { apply selects_filter. intros e. unfold not_named.
    by destruct (name_is name e). }
  assert (∀ f, DataManager.set_timetables_file f
                 (DataManager.set_timetables_file
                    (Holds (VList (List.filter (not_named name) l))) dm)
               = DataManager.set_timetables_file f dm) as Hset by done.
  assert (DataManager.delete_timetable IoOk name
            (DataManager.set_timetables_file
               (Holds (VList (List.filter (not_named name) l))) dm)
          = (true, DataManager.set_timetables_file
                     (Holds (VList (List.filter (not_named name) l))) dm)) as D.
  { erewrite delete_timetable_list; [|done|by apply filter_has_name].
    by rewrite filter_twice, Hset. }
  eexists. split; [done|]. split; [done|]. split; [by apply selects_elem_of|].
  split; [done|].
  intros w' dm'' H. destruct (write_timetables_true _ _ _ _ H) as (_&_&->&_).
  rewrite D in H. by injection H.
Qed.

Lemma delete_timetable_removes_all_witness :
  ∃ l',
    DataManager.load_all_timetables StoreExample.deleted = VList l'
    ∧ selects (λ e, name_is "Fall" e = false)
        [Timetable.to_dict Example.fall; Timetable.to_dict StoreExample.spring]
        l'
    ∧ (∀ e, e ∈ l'
            ↔ e ∈ [Timetable.to_dict Example.fall;
                   Timetable.to_dict StoreExample.spring]
              ∧ name_is "Fall" e = false)
    ∧ DataManager.delete_timetable IoOk "Fall" StoreExample.deleted
      = (true, StoreExample.deleted)
    ∧ (∀ w' dm'',
         DataManager.delete_timetable w' "Fall" StoreExample.deleted
         = (true, dm'') → dm'' = StoreExample.deleted).
Proof.
  exact (delete_timetable_removes_all IoOk "Fall" StoreExample.saved
           StoreExample.deleted
           [Timetable.to_dict Example.fall; Timetable.to_dict StoreExample.spring]
           eq_refl eq_refl).
Defined.

(** ** Reachable stores *)

Section Reachable.
Import DataManager.
Implicit Types (l : list value) (dm : DataManager.t)
  (ts : list Timetable.t).

Lemma to_dict_has_names ts :
  Forall (has_key "name") (map Timetable.to_dict ts).
Proof.
  induction ts; constructor; [apply has_name_to_dict|done].
Qed.

Lemma not_named_to_dict n t :
  not_named n (Timetable.to_dict t)
  = negb (String.eqb (Timetable.name t) n).
Proof. done. Qed.

Lemma filter_to_dict n ts :
  List.filter (not_named n) (map Timetable.to_dict ts)
  = map Timetable.to_dict
      (List.filter (λ t, negb (String.eqb (Timetable.name t) n)) ts).
Proof.
  induction ts as [|t ts IH]; [done|]. cbn [map List.filter].
  rewrite not_named_to_dict, IH. by destruct (negb _).
Qed.

Lemma NoDup_filter_names (f : Timetable.t → bool) ts :
  NoDup (map Timetable.name ts) →
  NoDup (map Timetable.name (List.filter f ts)).
Proof.
  induction ts as [|t ts IH]; [done|]. cbn.
  intros [Ht Hts]%NoDup_cons. destruct (f t); [|by apply IH].
  cbn. apply NoDup_cons. split; [|by apply IH].
  intros Hin. apply Ht. clear -Hin.
  induction ts as [|t' ts IH]; [done|]. cbn in *.
  destruct (f t'); [|by right; apply IH].
  apply elem_of_cons in Hin as [->|Hin]; [by left|right; by apply IH].
Qed.

Lemma other_name_to_dict n ts :
  Forall (other_name n) (map Timetable.to_dict ts) →
  n ∉ map Timetable.name ts.
Proof.
  induction ts as [|t ts IH]; cbn; intros H; [by intros ?%elem_of_nil|].
  inversion H as [|? ? [_ Ht] Hts]; subst.
  apply not_elem_of_cons. split; [|by apply IH].
  intros ->. by rewrite name_is_to_dict in Ht.
Qed.

Lemma stores_save w t dm dm' ts :
  stores dm ts → save_timetable w t dm = (true, dm') →
  ∃ ts', stores dm' ts'.
Proof.
  intros [Hl Hnd] (l&l'&Hl0&->&Hl')%save_timetable_true.
  rewrite Hl in Hl0. injection Hl0 as <-.
  destruct Hl' as [(l1&e&l2&Heq&_&He&->)|(H&->)].
  - apply map_eq_app in Heq as (ts1&ts2'&->&<-&Heq).
    apply map_eq_cons in Heq as (t0&ts2&->&<-&<-).
    apply name_is_to_dict_iff in He.
    exists (ts1 ++ t :: ts2). split.
    + cbn. by rewrite map_app.
    + rewrite map_app in *. cbn in *. by rewrite <-He.
  - exists (ts ++ [t]). split.
    + cbn. by rewrite map_app.
    + rewrite map_app. cbn. apply NoDup_app. split; [done|].
      split; [|apply NoDup_singleton].
      intros n Hn ->%list_elem_of_singleton.
      by apply other_name_to_dict in H.
Qed.

Lemma stores_delete w n dm dm' ts :
  stores dm ts → delete_timetable w n dm = (true, dm') →
  ∃ ts', stores dm' ts'.
Proof.
  intros [Hl Hnd] (items&Hi&_&->)%delete_timetable_true.
  rewrite Hl in Hi. injection Hi as <-.
  eexists. split; [cbn; by rewrite filter_to_dict|].
  by apply NoDup_filter_names.
Qed.

Lemma reachable_stores dm : reachable dm → ∃ ts, stores dm ts.
Proof.
  induction 1 as [|dm o w dm' _ [ts Hts] Hrun].
  - exists []. split; [done|constructor].
  - destruct o; [by eapply stores_save|by eapply stores_delete].
Qed.

Lemma lookup_to_dict ts i e :
  map Timetable.to_dict ts !! i = Some e →
  ∃ t, ts !! i = Some t ∧ e = Timetable.to_dict t.
Proof.
  revert i. induction ts as [|t ts IH]; intros [|i] H; try done.
  - injection H as <-. by exists t.
  - by apply IH.
Qed.

Lemma lookup_names ts i t :
  ts !! i = Some t → map Timetable.name ts !! i = Some (Timetable.name t).
Proof.
  revert i. induction ts as [|t' ts IH]; intros [|i] H; try done.
  - by injection H as ->.
  - by apply IH.
Qed.

Lemma stores_no_duplicate_names dm ts :
  stores dm ts → no_duplicate_names dm.
Proof.
  intros [Hl Hnd]. exists (map Timetable.to_dict ts).
  split; [done|]. split; [apply to_dict_has_names|].
  intros i j e1 e2 v (t1&H1&->)%lookup_to_dict (t2&H2&->)%lookup_to_dict.
  cbn. intros [= <-] [= Hn].
  eapply NoDup_lookup; [exact Hnd|by apply lookup_names|].
  rewrite <-Hn. by apply lookup_names.
Qed.

End Reachable.

Section Coincide.
Import DataManager.
Implicit Types (l : list value) (dm : DataManager.t)
  (ts : list Timetable.t).

Lemma filter_absent n ts :
  n ∉ map Timetable.name ts →
  List.filter (not_named n) (map Timetable.to_dict ts)
  = map Timetable.to_dict ts.
Proof.
  induction ts as [|t ts IH]; [done|]. cbn [map List.filter].
  intros [Hn Hts]%not_elem_of_cons. rewrite not_named_to_dict.
  destruct (String.eqb_spec (Timetable.name t) n) as [E|_];
    [by destruct Hn|].
  cbn. by rewrite IH.
Qed.

Lemma filter_remove_first n ts :
  NoDup (map Timetable.name ts) →
  List.filter (not_named n) (map Timetable.to_dict ts)
  = remove_first n (map Timetable.to_dict ts).
Proof.
  induction ts as [|t ts IH]; [done|]. cbn [map List.filter remove_first].
  intros [Ht Hts]%NoDup_cons. unfold not_named at 1.
  destruct (name_is n (Timetable.to_dict t)) eqn:E; cbn.
  - apply name_is_to_dict_iff in E as <-. by apply filter_absent.
  - by rewrite IH.
Qed.

Lemma replace_every_absent n d l :
  Forall (λ x, name_is n x = false) l → replace_every n d l = l.
Proof.
  induction 1 as [|x l Hx _ IH]; [done|].
  unfold replace_every in *. cbn. by rewrite Hx, IH.
Qed.

Lemma absent_not_named n ts :
  n ∉ map Timetable.name ts →
  Forall (λ x, name_is n x = false) (map Timetable.to_dict ts).
Proof.
  induction ts as [|t ts IH]; cbn; [constructor|].
  intros [Hn Hts]%not_elem_of_cons. constructor; [|by apply IH].
  destruct (name_is n (Timetable.to_dict t)) eqn:E; [|done].
  by apply name_is_to_dict_iff in E.
Qed.

Lemma existsb_not_named n l :
  Forall (λ x, name_is n x = false) l → existsb (name_is n) l = false.
Proof. induction 1 as [|x l Hx _ IH]; [done|]. cbn. by rewrite Hx. Qed.

(** With distinct names, the first entry of a name is the only one. *)
Lemma stores_save_every t dm ts :
  stores dm ts →
  save_timetable IoOk t dm
  = (true,
     set_timetables_file
       (Holds (VList
                 (let l := map Timetable.to_dict ts in
                  if existsb (name_is (Timetable.name t)) l
                  then replace_every (Timetable.name t)
                         (Timetable.to_dict t) l
                  else l ++ [Timetable.to_dict t]))) dm).
Proof.
  intros [Hl Hnd].
  pose proof (save_timetable_succeeds t dm _ Hl (to_dict_has_names ts)) as Hs.
  destruct (save_timetable IoOk t dm) as [b dm'] eqn:E. cbn in Hs. subst b.
  f_equal.
  apply save_timetable_true in E as (l&l'&Hl0&->&Hl').
  rewrite Hl in Hl0. injection Hl0 as <-. do 3 f_equal. cbn zeta.
  destruct Hl' as [(l1&e&l2&Heq&H1%other_name_not_named&He&->)
                  |(H%other_name_not_named&->)].
  - rewrite Heq, existsb_app. cbn. rewrite He, orb_true_r.
    unfold replace_every. rewrite map_app. cbn. rewrite He.
    fold (replace_every (Timetable.name t) (Timetable.to_dict t) l1).
    fold (replace_every (Timetable.name t) (Timetable.to_dict t) l2).
    rewrite replace_every_absent by done.
    rewrite replace_every_absent; [done|].
    apply map_eq_app in Heq as (ts1&ts2'&->&<-&Heq).
    apply map_eq_cons in Heq as (t0&ts2&->&<-&<-).
    apply name_is_to_dict_iff in He.
    apply absent_not_named. rewrite map_app in Hnd. cbn in Hnd.
    apply NoDup_app in Hnd as (_&_&[Hn _]%NoDup_cons). by rewrite <-He.
  - by rewrite existsb_not_named.
Qed.

Lemma stores_delete_first n dm ts :
  stores dm ts →
  delete_timetable IoOk n dm
  = (true,
     set_timetables_file
       (Holds (VList (remove_first n (map Timetable.to_dict ts)))) dm).
Proof.
  intros [Hl Hnd].
  rewrite (delete_timetable_list n dm _ Hl (to_dict_has_names ts)).
  by rewrite filter_remove_first.
Qed.

End Coincide.

(** C10: in every data directory that successful saves and deletes lead to
    from the empty one, no two stored entries have the same name; so there
    [save_timetable], which replaces the first entry of the name, does what
    replacing every entry of the name would do, and [delete_timetable],
    which removes every entry of the name, does what removing the first one
    would do. *)
Theorem reachable_no_duplicate_names (dm : DataManager.t) :
  reachable dm →
  no_duplicate_names dm
  ∧ ∃ l,
      DataManager.load_all_timetables dm = VList l
      ∧ (∀ t,
           DataManager.save_timetable IoOk t dm
           = (true,
              DataManager.set_timetables_file
                (Holds (VList
                          (if existsb (name_is (Timetable.name t)) l
                           then replace_every (Timetable.name t)
                                  (Timetable.to_dict t) l
                           else l ++ [Timetable.to_dict t]))) dm))
      ∧ (∀ n,
           DataManager.delete_timetable IoOk n dm
           = (true,
              DataManager.set_timetables_file
                (Holds (VList (remove_first n l))) dm)).
Proof.
  intros [ts Hts]%reachable_stores.
  split; [by eapply stores_no_duplicate_names|].
  exists (map Timetable.to_dict ts). split; [apply Hts|].
  split; [intros t; by apply stores_save_every
         |intros n; by apply stores_delete_first].
Qed.

Lemma reachable_saved : reachable StoreExample.saved.
Proof.
  apply (reachable_step
           (DataManager.save_timetable IoOk Example.fall DataManager.empty).2
           (SaveTimetable StoreExample.spring) IoOk); [|reflexivity].
  apply (reachable_step DataManager.empty (SaveTimetable Example.fall) IoOk);
    [apply reachable_empty|reflexivity].
Defined.

Lemma reachable_no_duplicate_names_witness :
  no_duplicate_names StoreExample.saved
  ∧ ∃ l,
      DataManager.load_all_timetables StoreExample.saved = VList l
      ∧ (∀ t,
           DataManager.save_timetable IoOk t StoreExample.saved
           = (true,
              DataManager.set_timetables_file
                (Holds (VList
                          (if existsb (name_is (Timetable.name t)) l
                           then replace_every (Timetable.name t)
                                  (Timetable.to_dict t) l
                           else l ++ [Timetable.to_dict t])))
                StoreExample.saved))
      ∧ (∀ n,
           DataManager.delete_timetable IoOk n StoreExample.saved
           = (true,
              DataManager.set_timetables_file
                (Holds (VList (remove_first n l))) StoreExample.saved)).
Proof.
  exact (reachable_no_duplicate_names StoreExample.saved reachable_saved).
Defined.

(** ** Settings *)

(** C8: when the settings file is absent, and when it cannot be read,
    [load_settings] returns the ten default settings. *)
Theorem load_settings_defaults (dm : DataManager.t) :
  DataManager.settings_file dm = Absent
  ∨ DataManager.settings_file dm = Unreadable →
  DataManager.load_settings dm
  = VDict [("theme", VStr "dark");
           ("appearance_mode", VStr "dark");
           ("color_theme", VStr "blue");
           ("window_geometry", VStr "1200x800");
           ("auto_save", VBool true);
           ("show_weekend", VBool false);
           ("time_format", VStr "24h");
           ("default_session_duration", VInt 60);
           ("reminder_enabled", VBool true);
           ("reminder_minutes", VInt 15)].
Proof. unfold DataManager.load_settings. by intros [-> | ->]. Qed.

Lemma load_settings_defaults_witness :
  DataManager.load_settings DataManager.empty
  = VDict [("theme", VStr "dark");
           ("appearance_mode", VStr "dark");
           ("color_theme", VStr "blue");
           ("window_geometry", VStr "1200x800");
           ("auto_save", VBool true);
           ("show_weekend", VBool false);
           ("time_format", VStr "24h");
           ("default_session_duration", VInt 60);
           ("reminder_enabled", VBool true);
           ("reminder_minutes", VInt 15)].
Proof.
  exact (load_settings_defaults DataManager.empty (or_introl eq_refl)).
Defined.

(** ** CSV export *)

Section Csv.
Import DataManager.

Lemma fold_writerow (rows : list (list string)) (csvfile : list string) :
  fold_left (λ f r, writerow r f) rows csvfile
  = csvfile ++ map csv_record rows.
Proof.
  revert csvfile. induction rows as [|r rows IH]; intros csvfile; cbn.
  - by rewrite app_nil_r.
  - rewrite IH. unfold writerow. by rewrite <-app_assoc.
Qed.

Lemma fold_left_map {A B C} (f : C → B → C) (g : A → B) (l : list A) c :
  fold_left (λ acc x, f acc (g x)) l c = fold_left f (map g l) c.
Proof. revert c. induction l as [|x l IH]; intros c; cbn; [done|apply IH]. Qed.

Lemma csv_writes_rows (t : Timetable.t) :
  csv_writes t
  = csv_record fieldnames
    :: map (λ s, csv_record (session_row s)) (Timetable.sessions t).
Proof.
  unfold csv_writes, writeheader.
  rewrite (fold_left_map (λ f r, writerow r f) session_row).
  rewrite fold_writerow. cbn [writerow app]. by rewrite map_map.
Qed.

(** A row of two fields or more is the fields, each quoted if it has to
    be, with commas between them. *)
Lemma csv_record_fields a b rest :
  csv_record (a :: b :: rest)
  = join_fields (map csv_field (a :: b :: rest)) +:+ lineterminator.
Proof. by destruct a. Qed.

Lemma needs_quotes_app s1 s2 :
  needs_quotes (s1 +:+ s2) = needs_quotes s1 || needs_quotes s2.
Proof.
  induction s1 as [|c s1 IH]; [done|].
  change (String c s1 +:+ s2) with (String c (s1 +:+ s2)).
  cbn [needs_quotes]. by rewrite IH, orb_assoc.
Qed.

Lemma csv_field_plain s : needs_quotes s = false → csv_field s = s.
Proof. unfold csv_field. by intros ->. Qed.

End Csv.

Section CsvText.
Import DataManager.

Lemma text_of_concat (writes : list string) :
  text_of writes = String.concat "" writes.
Proof.
  induction writes as [|w [|w' writes] IH]; [done| |].
  - cbn. induction w as [|c w IHw]; [done|].
    change (String c w +:+ "") with (String c (w +:+ "")). by rewrite IHw.
  - change (text_of (w :: w' :: writes)) with (w +:+ text_of (w' :: writes)).
    by rewrite IH.
Qed.

Lemma needs_quotes_Forall s :
  needs_quotes s = false
  ↔ Forall (λ c, c ≠ ","%char ∧ c ≠ "034"%char ∧ c ≠ "013"%char
                 ∧ c ≠ "010"%char)
      (list_ascii_of_string s).
Proof.
  induction s as [|c s IH]; cbn [needs_quotes list_ascii_of_string].
  - split; [constructor|done].
  - rewrite orb_false_iff, IH, Forall_cons. unfold special, dquote, CR, LF.
    rewrite !orb_false_iff, !Ascii.eqb_neq. tauto.
Qed.

End CsvText.

(** C9: [export_to_csv] writes the header row
    [Day,Time,Subject,Code,Room,Type,Instructor,Notes] and then one row for
    each session, in the order of the list, each row ended by CR LF.  The
    columns of a row are the day, the time as start, space, dash, space,
    end, the subject name, the code, the room, the type, the instructor and
    the notes, with commas between them; a column is written as it is unless
    it holds a comma, a quote or a line break, and then between quotes with
    its quotes doubled, so an empty instructor or an empty note is an empty
    field.  The scenario of the specification gives the two lines it
    states. *)
Theorem export_to_csv_rows (t : Timetable.t) :
  DataManager.export_to_csv true t
  = (true,
     Some
       (String.concat ""
          (("Day,Time,Subject,Code,Room,Type,Instructor,Notes"
            +:+ String "013" (String "010" ""))
           :: map
                (λ s,
                   (csv_field (ClassSession.day s) +:+ ","
                    +:+ csv_field
                          (TimeSlot.start_time (ClassSession.time_slot s)
                           +:+ " - "
                           +:+ TimeSlot.end_time (ClassSession.time_slot s))
                    +:+ ","
                    +:+ csv_field (Subject.name (ClassSession.subject s))
                    +:+ ","
                    +:+ csv_field (Subject.code (ClassSession.subject s))
                    +:+ ","
                    +:+ csv_field (ClassSession.room s) +:+ ","
                    +:+ csv_field (ClassSession.session_type s) +:+ ","
                    +:+ csv_field (Subject.instructor (ClassSession.subject s))
                    +:+ ","
                    +:+ csv_field (ClassSession.notes s))
                   +:+ String "013" (String "010" ""))
                (Timetable.sessions t))))
  ∧ length (DataManager.csv_writes t) = S (length (Timetable.sessions t))
  ∧ (∀ s, plain s
          ↔ Forall (λ c, c ≠ ","%char ∧ c ≠ "034"%char ∧ c ≠ "013"%char
                         ∧ c ≠ "010"%char)
              (list_ascii_of_string s))
  ∧ (∀ s, plain s → csv_field s = s)
  ∧ (∀ s, ¬ plain s →
          csv_field s = String "034" (double_quotes s +:+ String "034" ""))
  ∧ (∀ start_time end_time,
       plain start_time → plain end_time →
       csv_field (start_time +:+ " - " +:+ end_time)
       = start_time +:+ " - " +:+ end_time)
  ∧ csv_field "" = ""
  ∧ csv_field "B12, east wing"
    = String "034" ("B12, east wing" +:+ String "034" "")
  ∧ DataManager.export_to_csv true Example.fall
    = (true,
       Some ("Day,Time,Subject,Code,Room,Type,Instructor,Notes"
             +:+ String "013" (String "010" "")
             +:+ "Monday,09:00 - 10:00,Intro CS,CS101,101,Lecture,,"
             +:+ String "013" (String "010" ""))).
Proof.
  split.
  { unfold DataManager.export_to_csv.
    rewrite text_of_concat, csv_writes_rows. do 3 f_equal.
    f_equal; try done. apply map_ext. intros s. apply csv_record_fields. }
  split; [by rewrite csv_writes_rows; cbn; rewrite length_map|].
  split; [apply needs_quotes_Forall|]. split; [apply csv_field_plain|].
  split.
  { intros s Hs. unfold csv_field, plain in *.
    by destruct (needs_quotes s). }
  split; [|done].
  intros st en Hs He. apply csv_field_plain. unfold plain in *.
  rewrite !needs_quotes_app, Hs, He. done.
Qed.

(** * Further properties of the domain model *)

Section Sessions.
Context {L : StrLower}.
Implicit Types (t : Timetable.t) (s : ClassSession.t) (c : clock).

Lemma list_remove_split `{EqDecision A} (x : A) (l1 l2 : list A) :
  x ∉ l1 → list_remove x (l1 ++ x :: l2) = l1 ++ l2.
Proof.
  induction l1 as [|y l1 IH]; cbn; intros Hx.
  - by rewrite decide_True.
  - apply not_elem_of_cons in Hx as [Hxy Hx].
    rewrite decide_False by done. by rewrite IH.
Qed.

Lemma list_remove_sublist `{EqDecision A} (x : A) (l : list A) :
  sublist (list_remove x l) l.
Proof.
  induction l as [|y l IH]; cbn; [constructor|].
  destruct (decide (y = x)); [by apply sublist_cons|by apply sublist_skip].
Qed.

Lemma list_remove_cons_Permutation `{EqDecision A} (x : A) (l : list A) :
  x ∈ l → x :: list_remove x l ≡ₚ l.
Proof.
  intros Hx. rewrite <-(list_remove_Permutation x l Hx) at 2.
  apply Permutation_cons_append.
Qed.

Lemma by_day_elem_of t day s :
  s ∈ Timetable.get_sessions_by_day t day
  ↔ s ∈ Timetable.sessions t ∧ lower (ClassSession.day s) = lower day.
Proof.
  apply (selects_elem_of (λ s, lower (ClassSession.day s) = lower day)).
  apply selects_filter. intros x. apply String.eqb_eq.
Qed.

(** Each edit takes one reading of the clock or none, and stamps the
    latest one it took. *)
Lemma apply_edit_stamp (c : clock) (st : Timetable.t * clock) e k :
  (1 ≤ k)%nat → (∀ n, st.2 n = c (k + n)%nat) →
  Timetable.last_modified st.1 = c (k - 1)%nat →
  ∃ k', (k ≤ k')%nat
        ∧ (∀ n, (apply_edit st e).2 n = c (k' + n)%nat)
        ∧ Timetable.last_modified (apply_edit st e).1 = c (k' - 1)%nat
        ∧ Timetable.name (apply_edit st e).1 = Timetable.name st.1
        ∧ Timetable.semester (apply_edit st e).1 = Timetable.semester st.1
        ∧ Timetable.created_date (apply_edit st e).1
          = Timetable.created_date st.1.
Proof.
  intros Hk Hc Hl. destruct st as [t c0]. cbn in *.
  assert (∃ k', (k ≤ k')%nat ∧ (∀ n, c0 (S n) = c (k' + n)%nat)
                ∧ c0 0%nat = c (k' - 1)%nat) as Htick.
  { exists (S k). split; [lia|]. split.
    - intros n. rewrite Hc. f_equal. lia.
    - rewrite Hc. f_equal. lia. }
  destruct e as [s|s]; cbn.
  - destruct Htick as (k'&?&?&?). by exists k'.
  - unfold Timetable.remove_session. case_bool_decide; cbn.
    + destruct Htick as (k'&?&?&?). by exists k'.
    + by exists k.
Qed.

End Sessions.

(** X1: [get_sessions_by_subject] is made of exactly the sessions whose
    subject code is the argument, letter for letter, in the order of the
    timetable. *)
Theorem get_sessions_by_subject_selects (t : Timetable.t) (code : string) :
  selects (λ s, Subject.code (ClassSession.subject s) = code)
    (Timetable.sessions t) (Timetable.get_sessions_by_subject t code)
  ∧ (∀ s, s ∈ Timetable.get_sessions_by_subject t code
          ↔ s ∈ Timetable.sessions t
            ∧ Subject.code (ClassSession.subject s) = code)
  ∧ sublist (Timetable.get_sessions_by_subject t code) (Timetable.sessions t).
Proof.
  assert (selects (λ s, Subject.code (ClassSession.subject s) = code)
            (Timetable.sessions t) (Timetable.get_sessions_by_subject t code))
    as S by (apply selects_filter; intros s; apply String.eqb_eq).
  split; [done|]. split; [by apply selects_elem_of|by eapply selects_sublist].
Qed.

(** X2: a timetable made by the constructor with empty timestamps and then
    changed by any sequence of [add_session] and [remove_session] calls
    keeps its name, its semester and, as creation date, the first reading of
    the clock; its [last_modified] is the latest reading taken so far. *)
Theorem edits_keep_identity (name semester : string)
    (sessions : list ClassSession.t) (es : list edit) (c : clock) :
  ∃ k,
    (2 ≤ k)%nat
    ∧ (∀ n, (apply_edits es
               (Timetable.__init__ name semester sessions "" "" c)).2 n
            = c (k + n)%nat)
    ∧ Timetable.last_modified
        (apply_edits es (Timetable.__init__ name semester sessions "" "" c)).1
      = c (k - 1)%nat
    ∧ Timetable.created_date
        (apply_edits es (Timetable.__init__ name semester sessions "" "" c)).1
      = c 0%nat
    ∧ Timetable.name
        (apply_edits es (Timetable.__init__ name semester sessions "" "" c)).1
      = name
    ∧ Timetable.semester
        (apply_edits es (Timetable.__init__ name semester sessions "" "" c)).1
      = semester.
Proof.
  assert (∀ es (st : Timetable.t * clock) k,
            (2 ≤ k)%nat → (∀ n, st.2 n = c (k + n)%nat) →
            Timetable.last_modified st.1 = c (k - 1)%nat →
            ∃ k', (2 ≤ k')%nat
                  ∧ (∀ n, (apply_edits es st).2 n = c (k' + n)%nat)
                  ∧ Timetable.last_modified (apply_edits es st).1
                    = c (k' - 1)%nat
                  ∧ Timetable.created_date (apply_edits es st).1
                    = Timetable.created_date st.1
                  ∧ Timetable.name (apply_edits es st).1 = Timetable.name st.1
                  ∧ Timetable.semester (apply_edits es st).1
                    = Timetable.semester st.1) as Hes.
  { clear es. induction es as [|e es IH]; intros st k Hk Hc Hl.
    - by exists k.
    - destruct (apply_edit_stamp c st e k) as (k1&Hk1&Hc1&Hl1&Hn&Hs&Hcd);
        [lia|done|done|].
      destruct (IH (apply_edit st e) k1) as (k'&?&?&?&Hcd'&Hn'&Hs');
        [lia|done|done|].
      exists k'.
      change (apply_edits (e :: es) st) with (apply_edits es (apply_edit st e)).
      repeat split; try done; congruence. }
  destruct (Hes es (Timetable.__init__ name semester sessions "" "" c) 2%nat)
    as (k&?&?&?&Hcd&Hn&Hs); [lia|done|done|].
  exists k. repeat split; try done; by rewrite ?Hcd, ?Hn, ?Hs.
Qed.

(** X3: after [add_session s] the sessions of a day are those of before,
    followed by [s] when the day of [s] and the argument are equal after
    [str.lower()], and those of before otherwise; likewise, with the codes
    compared as they are, for the sessions of a subject code.  For ASCII
    days, equal after [str.lower()] is equal up to the case of the
    letters. *)
Theorem add_session_then_query {L : StrLower} (t : Timetable.t)
    (s : ClassSession.t) (c : clock) :
  (∀ day,
     lower (ClassSession.day s) = lower day →
     Timetable.get_sessions_by_day (Timetable.add_session s t c).1 day
     = Timetable.get_sessions_by_day t day ++ [s])
  ∧ (∀ day,
       lower (ClassSession.day s) ≠ lower day →
       Timetable.get_sessions_by_day (Timetable.add_session s t c).1 day
       = Timetable.get_sessions_by_day t day)
  ∧ (∀ code,
       Timetable.get_sessions_by_subject (Timetable.add_session s t c).1 code
       = Timetable.get_sessions_by_subject t code
         ++ (if decide (Subject.code (ClassSession.subject s) = code)
             then [s] else []))
  ∧ (lower_on_ascii →
     ∀ day, is_ascii (ClassSession.day s) → is_ascii day →
            (eq_ignore_case (ClassSession.day s) day →
             Timetable.get_sessions_by_day (Timetable.add_session s t c).1 day
             = Timetable.get_sessions_by_day t day ++ [s])
            ∧ (¬ eq_ignore_case (ClassSession.day s) day →
               Timetable.get_sessions_by_day (Timetable.add_session s t c).1
                 day
               = Timetable.get_sessions_by_day t day)).
Proof.
  assert (∀ day,
            lower (ClassSession.day s) = lower day →
            Timetable.get_sessions_by_day (Timetable.add_session s t c).1 day
            = Timetable.get_sessions_by_day t day ++ [s]) as Hyes.
  { intros day E. unfold Timetable.get_sessions_by_day. cbn.
    rewrite List.filter_app. cbn. by rewrite E, String.eqb_refl. }
  assert (∀ day,
            lower (ClassSession.day s) ≠ lower day →
            Timetable.get_sessions_by_day (Timetable.add_session s t c).1 day
            = Timetable.get_sessions_by_day t day) as Hno.
  { intros day E. unfold Timetable.get_sessions_by_day. cbn.
    rewrite List.filter_app. cbn.
    destruct (String.eqb_spec (lower (ClassSession.day s)) (lower day));
      [done|by rewrite app_nil_r]. }
  split; [done|]. split; [done|]. split.
  - intros code. unfold Timetable.get_sessions_by_subject. cbn.
    rewrite List.filter_app. cbn.
    destruct (String.eqb_spec (Subject.code (ClassSession.subject s)) code);
      by case_decide.
  - intros HL day Hs Hd. split; intros E.
    + by apply Hyes, lower_eq_ignore_case.
    + apply Hno. intros E'. by apply E, (lower_eq_ignore_case _ _ HL Hs Hd).
Qed.

(** X4: [remove_session] of a session that is in the list takes out one
    copy, the first: the rest keeps its order, the list is one shorter, a
    second copy stays, and [last_modified] is the reading of the clock. *)
Theorem remove_session_one_copy (t : Timetable.t) (s : ClassSession.t)
    (c : clock) :
  s ∈ Timetable.sessions t →
  s :: Timetable.sessions (Timetable.remove_session s t c).1
    ≡ₚ Timetable.sessions t
  ∧ S (length (Timetable.sessions (Timetable.remove_session s t c).1))
    = length (Timetable.sessions t)
  ∧ sublist (Timetable.sessions (Timetable.remove_session s t c).1)
      (Timetable.sessions t)
  ∧ (∀ l1 l2,
       Timetable.sessions t = l1 ++ s :: l2 → s ∉ l1 →
       Timetable.sessions (Timetable.remove_session s t c).1 = l1 ++ l2)
  ∧ Timetable.last_modified (Timetable.remove_session s t c).1 = c 0%nat.
Proof.
  intros Hs. unfold Timetable.remove_session.
  rewrite bool_decide_eq_true_2 by done. cbn.
  pose proof (list_remove_cons_Permutation s _ Hs) as HP.
  split; [done|]. split; [by apply Permutation_length in HP|].
  split; [apply list_remove_sublist|]. split; [|done].
  intros l1 l2 -> H1. by apply list_remove_split.
Qed.

Lemma remove_session_one_copy_witness :
  Timetable.sessions
    (Timetable.remove_session Example.monday_9
       (Timetable.mk "Fall" "2024F"
          [Example.tuesday_10; Example.monday_9; Example.monday_9]
          "2024-09-01T08:00:00" "2024-09-02T10:30:00")
       Example.october).1
  = [Example.tuesday_10] ++ [Example.monday_9].
Proof.
  refine (proj1 (proj2 (proj2 (proj2
            (remove_session_one_copy
               (Timetable.mk "Fall" "2024F"
                  [Example.tuesday_10; Example.monday_9; Example.monday_9]
                  "2024-09-01T08:00:00" "2024-09-02T10:30:00")
               Example.monday_9 Example.october _))))
            [Example.tuesday_10] [Example.monday_9] eq_refl _).
  - cbn. apply elem_of_cons. right. apply elem_of_cons. by left.
  - intros [E|H]%elem_of_cons; [discriminate E|by apply elem_of_nil in H].
Defined.

(** X5: every session is among the sessions of its own day, and a session
    listed for two day arguments means that the two are equal after
    [str.lower()], for ASCII arguments equal up to the case of the letters:
    the days divide the sessions into groups. *)
Theorem sessions_grouped_by_day {L : StrLower} (t : Timetable.t) :
  (∀ s, s ∈ Timetable.sessions t →
        s ∈ Timetable.get_sessions_by_day t (ClassSession.day s))
  ∧ (∀ s day1 day2,
       s ∈ Timetable.get_sessions_by_day t day1 →
       s ∈ Timetable.get_sessions_by_day t day2 →
       lower day1 = lower day2)
  ∧ (lower_on_ascii →
     ∀ s day1 day2,
       is_ascii day1 → is_ascii day2 →
       s ∈ Timetable.get_sessions_by_day t day1 →
       s ∈ Timetable.get_sessions_by_day t day2 →
       eq_ignore_case day1 day2).
Proof.
  assert (∀ s day1 day2,
            s ∈ Timetable.get_sessions_by_day t day1 →
            s ∈ Timetable.get_sessions_by_day t day2 →
            lower day1 = lower day2) as Hsame.
  { intros s d1 d2 [_ H1]%by_day_elem_of [_ H2]%by_day_elem_of. congruence. }
  split; [|split; [done|]].
  - intros s Hs. by apply by_day_elem_of.
  - intros HL s d1 d2 H1 H2 Hs1 Hs2.
    apply (lower_eq_ignore_case _ _ HL H1 H2). by eapply Hsame.
Qed.

(** * Further properties of [from_dict] *)

Section Rejects.

Lemma subscript_missing v k : ¬ has_key k v → raises (subscript v k).
Proof.
  intros Hk. destruct (subscript v k) as [x|e] eqn:E; [|by eexists].
  destruct Hk. by eapply subscript_Ok.
Qed.

Lemma session_from_dict_missing_key sd :
  ¬ has_key "subject" sd ∨ ¬ has_key "day" sd ∨ ¬ has_key "time_slot" sd →
  raises (Timetable.session_from_dict sd).
Proof.
  intros Hk. unfold Timetable.session_from_dict. raise_cases.
  destruct Hk as [[]|[[]|[]]]; by eapply subscript_Ok.
Qed.

Lemma sessions_from_dicts_raises l :
  Exists (λ sd, raises (Timetable.session_from_dict sd)) l →
  raises (Timetable.sessions_from_dicts l).
Proof.
  induction 1 as [sd l [e He]|sd l _ IH]; cbn [Timetable.sessions_from_dicts].
  - rewrite He. by eexists.
  - raise_cases. destruct IH as [e He]. rewrite He in *. done.
Qed.

Lemma forallb_fields_false d :
  forallb (λ kv : string * value, bool_decide (kv.1 ∈ Subject.fields)) d = false
  ↔ unknown_key d.
Proof.
  unfold unknown_key. induction d as [|[k v] d IH]; cbn [forallb].
  - split; [done|]. by intros (k&v&H%elem_of_nil&_).
  - rewrite andb_false_iff, IH, bool_decide_eq_false. cbn. split.
    + intros [Hk|(k'&v'&Hin&Hk')].
      * exists k, v. split; [by left|done].
      * exists k', v'. split; [by right|done].
    + intros (k'&v'&[[= -> ->]|Hin]%elem_of_cons&Hk'); [by left|].
      right. by exists k', v'.
Qed.

Lemma sessions_from_chars s :
  s ≠ "" → Timetable.sessions_from_dicts (chars s) = Raise TypeError.
Proof. by destruct s. Qed.

Lemma sessions_from_keys (d : list (string * value)) :
  d ≠ [] →
  Timetable.sessions_from_dicts (map (λ kv, VStr kv.1) d) = Raise TypeError.
Proof. by destruct d. Qed.

End Rejects.


(** X6: one session mapping without [subject], [day] or [time_slot] in the
    [sessions] list makes [from_dict] raise: the other sessions and the
    timetable are not loaded either. *)
Theorem from_dict_bad_session (data : value) (c : clock) (l : list value) :
  get data "sessions" (VList []) = Ok (VList l) →
  Exists (λ sd, ¬ has_key "subject" sd ∨ ¬ has_key "day" sd
                ∨ ¬ has_key "time_slot" sd) l →
  raises (Timetable.from_dict data c).
Proof.
  intros Hs Hl. unfold Timetable.from_dict. rewrite Hs.
  cbn [mbind result_bind iterate].
  destruct (sessions_from_dicts_raises l) as [e ->]; [|by eexists].
  eapply Exists_impl; [exact Hl|]. apply session_from_dict_missing_key.
Qed.

Lemma from_dict_bad_session_witness :
  raises (Timetable.from_dict RejectExample.no_day Example.october).
Proof.
  refine (from_dict_bad_session RejectExample.no_day Example.october _
            eq_refl _).
  apply Exists_cons_tl, Exists_cons_hd. right. left.
  intros (d&x&[= <-]&Hx). discriminate Hx.
Defined.

(** X7: the [Subject] constructor applied to a mapping raises [TypeError]
    exactly when the mapping has a key that is no field, or lacks [name] or
    [code]; a value that is no mapping raises too.  A subject it builds has
    the name and code of the mapping, and 3 credits, no instructor and the
    blue colour where the mapping says nothing. *)
Theorem Subject_kwargs_strict :
  (∀ d, Subject.kwargs (VDict d) = Raise TypeError
        ↔ unknown_key d ∨ lookup_key "name" d = None
          ∨ lookup_key "code" d = None)
  ∧ (∀ v, (∀ d, v ≠ VDict d) → Subject.kwargs v = Raise TypeError)
  ∧ (∀ d s,
       Subject.kwargs (VDict d) = Ok (Typed s) →
       lookup_key "name" d = Some (VStr (Subject.name s))
       ∧ lookup_key "code" d = Some (VStr (Subject.code s))
       ∧ (lookup_key "credits" d = None → Subject.credits s = 3)
       ∧ (lookup_key "instructor" d = None → Subject.instructor s = "")
       ∧ (lookup_key "color" d = None → Subject.color s = "#3b82f6")).
Proof.
  split; [|split].
  - intros d. rewrite <-forallb_fields_false. unfold Subject.kwargs.
    destruct (forallb _ d); [|by split; [left|]].
    destruct (lookup_key "name" d), (lookup_key "code" d);
      split; try done; try tauto; intros [?|[?|?]]; done.
  - intros [] H; try done. by destruct (H d).
  - intros d s. unfold Subject.kwargs.
    destruct (forallb _ d); [|done].
    destruct (lookup_key "name" d) as [[| | |n| |]|]; try done;
      destruct (lookup_key "code" d) as [[| | |co| |]|]; try done.
    destruct (lookup_key "credits" d) as [[| |cr| | |]|]; try done;
      destruct (lookup_key "instructor" d) as [[| | |i| |]|]; try done;
      destruct (lookup_key "color" d) as [[| | |col| |]|]; try done;
      cbn; intros [= <-]; done.
Qed.

(** X8: a [sessions] value that is [None], a boolean or a number, or a
    string or mapping that is not empty, makes [from_dict] raise
    [TypeError]; the empty string and the empty mapping are read as no
    session at all. *)
Theorem from_dict_sessions_shape (d : list (string * value)) (c : clock) :
  (∀ sv, sv = VNone ∨ (∃ b, sv = VBool b) ∨ (∃ n, sv = VInt n)
         ∨ (∃ s, sv = VStr s ∧ s ≠ "")
         ∨ (∃ kvs, sv = VDict kvs ∧ kvs ≠ []) →
         Timetable.from_dict (VDict (("sessions", sv) :: d)) c
         = Raise TypeError)
  ∧ Timetable.from_dict (VDict (("sessions", VStr "") :: d)) c
    = Timetable.from_dict (VDict (("sessions", VList []) :: d)) c
  ∧ Timetable.from_dict (VDict (("sessions", VDict []) :: d)) c
    = Timetable.from_dict (VDict (("sessions", VList []) :: d)) c.
Proof.
  split; [|done].
  intros sv [->|[[b ->]|[[n ->]|[(s&->&Hs)|(kvs&->&Hk)]]]]; try done.
  - unfold Timetable.from_dict. cbn. by rewrite sessions_from_chars.
  - unfold Timetable.from_dict. cbn. by rewrite sessions_from_keys.
Qed.

(** * Further properties of the stored collection *)

Section Gateway.
Import DataManager.
Implicit Types (l : list value) (dm : DataManager.t) (t : Timetable.t)
  (c : clock) (n : string).

Lemma load_timetable_list n dm l c :
  load_all_timetables dm = VList l →
  load_timetable n dm c
  = match scan_timetables n l c with Ok r => r | Raise _ => None end.
Proof. intros Hl. unfold load_timetable. by rewrite Hl. Qed.

Lemma scan_timetables_absent n l c :
  Forall (other_name n) l → scan_timetables n l c = Ok None.
Proof.
  induction 1 as [|x l Hx _ IH]; [done|]. cbn [scan_timetables].
  destruct (other_name_step _ _ Hx) as (v&Hs&Hv). rewrite Hs.
  cbn [mbind result_bind]. by rewrite Hv.
Qed.

Lemma named_elsewhere n n' e :
  name_is n e = true → n' ≠ n →
  ∃ v, subscript e "name" = Ok v ∧ eq_str v n' = false.
Proof.
  unfold name_is. destruct (subscript e "name") as [[| | |s| |]|]; try done.
  cbn. intros <-%String.eqb_eq Hn. exists (VStr s). split; [done|].
  cbn. by apply String.eqb_neq.
Qed.

(** Exchanging an entry of another name for one of another name does not
    change what the scan for [n] finds. *)
Lemma scan_timetables_exchange n l1 e d l2 c v v' :
  subscript e "name" = Ok v → eq_str v n = false →
  subscript d "name" = Ok v' → eq_str v' n = false →
  scan_timetables n (l1 ++ e :: l2) c = scan_timetables n (l1 ++ d :: l2) c.
Proof.
  intros He Hv Hd Hv'. induction l1 as [|x l1 IH]; cbn [app scan_timetables].
  - rewrite He, Hd. cbn [mbind result_bind]. by rewrite Hv, Hv'.
  - by rewrite IH.
Qed.

Lemma scan_timetables_snoc n l d c v :
  subscript d "name" = Ok v → eq_str v n = false →
  scan_timetables n (l ++ [d]) c = scan_timetables n l c.
Proof.
  intros Hd Hv. induction l as [|x l IH]; cbn [app scan_timetables].
  - rewrite Hd. cbn [mbind result_bind]. by rewrite Hv.
  - by rewrite IH.
Qed.

Lemma scan_timetables_filter n n' l c :
  Forall (has_key "name") l → n' ≠ n →
  scan_timetables n' (List.filter (not_named n) l) c = scan_timetables n' l c.
Proof.
  intros Hl Hn. induction Hl as [|e l He _ IH]; [done|].
  cbn [List.filter]. unfold not_named at 1.
  destruct (name_is n e) eqn:E; cbn [negb].
  - destruct (named_elsewhere _ _ _ E Hn) as (v&Hs&Hv).
    cbn [scan_timetables]. rewrite Hs. cbn [mbind result_bind].
    by rewrite Hv.
  - cbn [scan_timetables]. by rewrite IH.
Qed.

Lemma filter_other_name n l :
  Forall (has_key "name") l →
  Forall (other_name n) (List.filter (not_named n) l).
Proof.
  induction 1 as [|e l He _ IH]; cbn [List.filter]; [constructor|].
  unfold not_named at 1. destruct (name_is n e) eqn:E; cbn [negb]; [done|].
  by constructor.
Qed.

Lemma names_of_total l :
  Forall (has_key "name") l → names_of l = Ok (map stored_name l).
Proof.
  induction 1 as [|e l (d&v&->&Hv) _ IH]; [done|].
  cbn [names_of map]. unfold stored_name, subscript. rewrite Hv.
  cbn [mbind result_bind]. by rewrite IH.
Qed.

Lemma get_timetable_names_list dm l :
  load_all_timetables dm = VList l → Forall (has_key "name") l →
  get_timetable_names dm = map stored_name l.
Proof.
  intros Hl Hk. unfold get_timetable_names. rewrite Hl.
  cbn [iterate mbind result_bind]. by rewrite names_of_total.
Qed.

Lemma stored_name_named n e :
  name_is n e = true → stored_name e = VStr n.
Proof.
  unfold name_is, stored_name.
  destruct (subscript e "name") as [[| | |s| |]|]; try done.
  cbn. by intros ->%String.eqb_eq.
Qed.

Lemma stored_name_other n l :
  Forall (other_name n) l → VStr n ∉ map stored_name l.
Proof.
  induction 1 as [|e l [He Hn] _ IH]; cbn; [by intros ?%elem_of_nil|].
  apply not_elem_of_cons. split; [|done].
  intros Heq. unfold name_is, stored_name in *.
  destruct (subscript e "name") as [v|]; [|done]. subst v.
  cbn in Hn. by rewrite String.eqb_refl in Hn.
Qed.

Lemma keep_others_raises n l :
  Exists (λ e, ¬ has_key "name" e) l → raises (keep_others n l).
Proof.
  induction 1 as [e l He|e l _ IH]; cbn [keep_others].
  - destruct (subscript_missing _ _ He) as [x ->]. by eexists.
  - raise_cases. destruct IH as [x Hx]. rewrite Hx in *. done.
Qed.

Lemma names_of_raises l :
  Exists (λ e, ¬ has_key "name" e) l → raises (names_of l).
Proof.
  induction 1 as [e l He|e l _ IH]; cbn [names_of].
  - destruct (subscript_missing _ _ He) as [x ->]. by eexists.
  - raise_cases. destruct IH as [x Hx]. rewrite Hx in *. done.
Qed.

Lemma find_existing_raises n l i :
  Exists (λ e, ¬ has_key "name" e) l →
  Forall (λ e, name_is n e = false) l →
  raises (find_existing n l i).
Proof.
  intros Hex Hall. revert i.
  induction Hex as [e l He|e l _ IH]; intros i; cbn [find_existing].
  - destruct (subscript_missing _ _ He) as [x ->]. by eexists.
  - inversion Hall as [|? ? Hn Hl]; subst. unfold name_is in Hn.
    destruct (subscript e "name") as [v|]; [|by eexists].
    cbn [mbind result_bind]. rewrite Hn. by apply IH.
Qed.

Lemma set_timetables_file_twice f g dm :
  set_timetables_file f (set_timetables_file g dm) = set_timetables_file f dm.
Proof. done. Qed.

Lemma absent_other_name n ts :
  n ∉ map Timetable.name ts →
  Forall (other_name n) (map Timetable.to_dict ts).
Proof.
  induction ts as [|t ts IH]; cbn; [constructor|].
  intros [Hn Hts]%not_elem_of_cons. constructor; [|by apply IH].
  split; [apply has_name_to_dict|].
  destruct (name_is n (Timetable.to_dict t)) eqn:E; [|done].
  by apply name_is_to_dict_iff in E.
Qed.

Lemma stored_names_to_dict ts :
  map stored_name (map Timetable.to_dict ts)
  = map (λ t, VStr (Timetable.name t)) ts.
Proof. by rewrite map_map. Qed.

End Gateway.

(** X9: on a collection whose entries all have a name, a successful
    [save_timetable t] leaves the list of names as it was when the name of
    [t] was in it, and adds the name at the end when it was not. *)
Theorem names_after_save (w : io) (t : Timetable.t) (dm dm' : DataManager.t)
    (l : list value) :
  DataManager.load_all_timetables dm = VList l →
  Forall (has_key "name") l →
  DataManager.save_timetable w t dm = (true, dm') →
  (VStr (Timetable.name t) ∈ DataManager.get_timetable_names dm →
   DataManager.get_timetable_names dm' = DataManager.get_timetable_names dm)
  ∧ (VStr (Timetable.name t) ∉ DataManager.get_timetable_names dm →
     DataManager.get_timetable_names dm'
     = DataManager.get_timetable_names dm ++ [VStr (Timetable.name t)]).
Proof.
  intros Hl Hk (l0&l'&Hl0&->&Hl')%save_timetable_true.
  rewrite Hl in Hl0. injection Hl0 as <-.
  rewrite (get_timetable_names_list dm l Hl Hk).
  destruct Hl' as [(l1&e&l2&->&H1&He&->)|(H&->)].
  - apply Forall_app in Hk as [Hk1 Hk2]. inversion Hk2 as [|? ? _ Hk2']; subst.
    erewrite get_timetable_names_list; [|done|].
    2:{ apply Forall_app. split; [done|].
        constructor; [apply has_name_to_dict|done]. }
    rewrite !map_app. cbn [map].
    rewrite (stored_name_named _ _ He),
      (stored_name_named _ _ (name_is_to_dict t)).
    split; [done|]. intros Hn. destruct Hn.
    apply elem_of_app. right. by left.
  - erewrite get_timetable_names_list; [|done|].
    2:{ apply Forall_app. split; [done|].
        constructor; [apply has_name_to_dict|constructor]. }
    rewrite map_app. cbn [map].
    rewrite (stored_name_named _ _ (name_is_to_dict t)).
    split; [|done]. intros Hn. by apply stored_name_other in H.
Qed.

Lemma names_after_save_witness :
  DataManager.get_timetable_names StoreExample.resaved
  = DataManager.get_timetable_names StoreExample.saved.
Proof.
  refine (proj1 (names_after_save IoOk StoreExample.fall_two
                   StoreExample.saved StoreExample.resaved
                   [Timetable.to_dict Example.fall;
                    Timetable.to_dict StoreExample.spring]
                   eq_refl _ eq_refl) _).
  - repeat constructor; apply has_name_to_dict.
  - cbn. by left.
Defined.

(** X10: [load_timetable] returns [None] for a name that no stored entry
    has, in particular in an empty directory, and for a name that
    [delete_timetable] has just deleted. *)
Theorem load_timetable_absent (n : string) (c : clock) :
  DataManager.load_timetable n DataManager.empty c = None
  ∧ (∀ dm l,
       DataManager.load_all_timetables dm = VList l →
       Forall (other_name n) l →
       DataManager.load_timetable n dm c = None)
  ∧ (∀ w dm dm',
       DataManager.delete_timetable w n dm = (true, dm') →
       DataManager.load_timetable n dm' c = None).
Proof.
  split; [done|]. split.
  - intros dm l Hl H. rewrite (load_timetable_list _ _ _ _ Hl).
    by rewrite scan_timetables_absent.
  - intros w dm dm' (items&_&Hk&->)%delete_timetable_true.
    erewrite load_timetable_list; [|done].
    by rewrite scan_timetables_absent by by apply filter_other_name.
Qed.

(** X11: a successful [save_timetable t] does not change what
    [load_timetable] returns for any other name. *)
Theorem save_timetable_frame (w : io) (t : Timetable.t)
    (dm dm' : DataManager.t) (n : string) (c : clock) :
  DataManager.save_timetable w t dm = (true, dm') →
  n ≠ Timetable.name t →
  DataManager.load_timetable n dm' c = DataManager.load_timetable n dm c.
Proof.
  intros (l&l'&Hl&->&Hl')%save_timetable_true Hn.
  rewrite (load_timetable_list _ _ _ _ Hl).
  erewrite load_timetable_list; [|done].
  destruct (named_elsewhere _ _ _ (name_is_to_dict t) Hn) as (v'&Hd&Hv').
  destruct Hl' as [(l1&e&l2&->&_&He&->)|(_&->)].
  - destruct (named_elsewhere _ _ _ He Hn) as (v&Hs&Hv).
    by rewrite (scan_timetables_exchange n l1 e (Timetable.to_dict t) l2 c
                  v v' Hs Hv Hd Hv').
  - by rewrite (scan_timetables_snoc n l (Timetable.to_dict t) c v' Hd Hv').
Qed.

Lemma save_timetable_frame_witness :
  DataManager.load_timetable "Spring" StoreExample.resaved Example.october
  = DataManager.load_timetable "Spring" StoreExample.saved Example.october.
Proof.
  refine (save_timetable_frame IoOk StoreExample.fall_two StoreExample.saved
            StoreExample.resaved "Spring" Example.october eq_refl _).
  intros H. discriminate H.
Defined.

(** X12: a successful [delete_timetable] does not change what
    [load_timetable] returns for any other name. *)
Theorem delete_timetable_frame (w : io) (n n' : string)
    (dm dm' : DataManager.t) (c : clock) :
  DataManager.delete_timetable w n dm = (true, dm') →
  n' ≠ n →
  DataManager.load_timetable n' dm' c = DataManager.load_timetable n' dm c.
Proof.
  intros (items&Hi&Hk&->)%delete_timetable_true Hn.
  erewrite load_timetable_list; [|done].
  unfold DataManager.load_timetable. rewrite Hi. cbn [mbind result_bind].
  by rewrite scan_timetables_filter.
Qed.

Lemma delete_timetable_frame_witness :
  DataManager.load_timetable "Spring" StoreExample.deleted Example.october
  = DataManager.load_timetable "Spring" StoreExample.saved Example.october.
Proof.
  refine (delete_timetable_frame IoOk "Fall" "Spring" StoreExample.saved
            StoreExample.deleted Example.october eq_refl _).
  intros H. discriminate H.
Defined.

(** X13: one stored entry without a [name] key blocks the collection:
    every [delete_timetable] fails, every [save_timetable] of a name that is
    not stored fails, both leave the directory as it was, and
    [get_timetable_names] returns no name at all. *)
Theorem nameless_entry_blocks (dm : DataManager.t) (l : list value) :
  DataManager.load_all_timetables dm = VList l →
  Exists (λ e, ¬ has_key "name" e) l →
  (∀ w n, DataManager.delete_timetable w n dm = (false, dm))
  ∧ (∀ w t, Forall (λ e, name_is (Timetable.name t) e = false) l →
            DataManager.save_timetable w t dm = (false, dm))
  ∧ DataManager.get_timetable_names dm = [].
Proof.
  intros Hl Hex. split; [|split].
  - intros w n. unfold DataManager.delete_timetable. rewrite Hl.
    cbn [iterate mbind result_bind].
    by destruct (keep_others_raises n l Hex) as [x ->].
  - intros w t Hall.
    unfold DataManager.save_timetable, DataManager.updated_timetables.
    rewrite Hl.
    by destruct (find_existing_raises (Timetable.name t) l 0 Hex Hall)
      as [x ->].
  - unfold DataManager.get_timetable_names. rewrite Hl.
    cbn [iterate mbind result_bind].
    by destruct (names_of_raises l Hex) as [x ->].
Qed.

Lemma nameless_entry_blocks_witness :
  (∀ w n,
     DataManager.delete_timetable w n GatewayExample.broken
     = (false, GatewayExample.broken))
  ∧ (∀ w t,
       Forall (λ e, name_is (Timetable.name t) e = false)
         [Timetable.to_dict Example.fall; GatewayExample.nameless] →
       DataManager.save_timetable w t GatewayExample.broken
       = (false, GatewayExample.broken))
  ∧ DataManager.get_timetable_names GatewayExample.broken = [].
Proof.
  refine (nameless_entry_blocks GatewayExample.broken
            [Timetable.to_dict Example.fall; GatewayExample.nameless]
            eq_refl _).
  apply Exists_cons_tl, Exists_cons_hd.
  intros (d&x&[= <-]&Hx). discriminate Hx.
Defined.

(** X14: when the collection file is absent or cannot be read, the
    gateway sees an empty collection: no name, no timetable to load, and a
    successful save or delete writes a new file over it, with the one
    timetable or with nothing. *)
Theorem missing_file_is_empty (dm : DataManager.t) :
  DataManager.timetables_file dm = Absent
  ∨ DataManager.timetables_file dm = Unreadable →
  DataManager.get_timetable_names dm = []
  ∧ (∀ n c, DataManager.load_timetable n dm c = None)
  ∧ (∀ t, DataManager.save_timetable IoOk t dm
          = (true,
             DataManager.set_timetables_file
               (Holds (VList [Timetable.to_dict t])) dm))
  ∧ (∀ n, DataManager.delete_timetable IoOk n dm
          = (true, DataManager.set_timetables_file (Holds (VList [])) dm)).
Proof.
  intros H.
  assert (DataManager.load_all_timetables dm = VList []) as Hl
    by (unfold DataManager.load_all_timetables; by destruct H as [-> | ->]).
  unfold DataManager.get_timetable_names, DataManager.load_timetable,
    DataManager.save_timetable, DataManager.updated_timetables,
    DataManager.delete_timetable.
  by rewrite Hl.
Qed.

Lemma missing_file_is_empty_witness :
  DataManager.get_timetable_names GatewayExample.corrupt = []
  ∧ (∀ n c, DataManager.load_timetable n GatewayExample.corrupt c = None)
  ∧ (∀ t, DataManager.save_timetable IoOk t GatewayExample.corrupt
          = (true,
             DataManager.set_timetables_file
               (Holds (VList [Timetable.to_dict t])) GatewayExample.corrupt))
  ∧ (∀ n, DataManager.delete_timetable IoOk n GatewayExample.corrupt
          = (true,
             DataManager.set_timetables_file (Holds (VList []))
               GatewayExample.corrupt)).
Proof.
  exact (missing_file_is_empty GatewayExample.corrupt (or_intror eq_refl)).
Defined.

(** X15: saving the same timetable again right after a successful save
    succeeds and changes nothing. *)
Theorem save_timetable_twice (w : io) (t : Timetable.t)
    (dm dm' : DataManager.t) :
  DataManager.save_timetable w t dm = (true, dm') →
  DataManager.save_timetable IoOk t dm' = (true, dm').
Proof.
  intros (l&l'&_&->&Hl')%save_timetable_true.
  assert (∃ l1 l2, l' = l1 ++ Timetable.to_dict t :: l2
                   ∧ Forall (other_name (Timetable.name t)) l1)
    as (l1&l2&->&H1).
  { destruct Hl' as [(l1&e&l2&_&H1&_&->)|(H&->)]; by eexists _, _. }
  unfold DataManager.save_timetable, DataManager.updated_timetables.
  cbn [DataManager.load_all_timetables DataManager.set_timetables_file
       DataManager.timetables_file].
  rewrite (find_existing_split _ _ _ _ _ H1 (name_is_to_dict t)).
  cbn [mbind result_bind DataManager.write_timetables].
  rewrite insert_app_r_alt, Nat.sub_diag by lia. done.
Qed.

Lemma save_timetable_twice_witness :
  DataManager.save_timetable IoOk StoreExample.fall_two StoreExample.resaved
  = (true, StoreExample.resaved).
Proof.
  exact (save_timetable_twice IoOk StoreExample.fall_two StoreExample.saved
           StoreExample.resaved eq_refl).
Defined.

(** X16: in a data directory reached by successful saves and deletes, the
    names listed by [get_timetable_names] are distinct strings, and
    [load_timetable] returns a timetable of that name for each of them. *)
Theorem reachable_names_load (dm : DataManager.t) (c : clock) :
  reachable dm →
  NoDup (DataManager.get_timetable_names dm)
  ∧ ∀ v, v ∈ DataManager.get_timetable_names dm →
         ∃ n t' c',
           v = VStr n
           ∧ DataManager.load_timetable n dm c = Some (Typed (t', c'))
           ∧ Timetable.name t' = n.
Proof.
  intros [ts [Hl Hnd]]%reachable_stores.
  rewrite (get_timetable_names_list dm _ Hl (to_dict_has_names ts)),
    stored_names_to_dict.
  split.
  - clear Hl. induction ts as [|t ts IH]; cbn; [constructor|].
    apply NoDup_cons in Hnd as [Ht Hts]. apply NoDup_cons.
    split; [|by apply IH]. intros Hin. apply Ht. clear -Hin.
    induction ts as [|t' ts IH]; cbn in *; [by apply elem_of_nil in Hin|].
    apply elem_of_cons in Hin as [[= ->]|Hin]; [by left|right; by apply IH].
  - intros v Hv.
    assert (∃ ts1 t0 ts2, ts = ts1 ++ t0 :: ts2 ∧ v = VStr (Timetable.name t0))
      as (ts1&t0&ts2&->&->).
    { clear -Hv. induction ts as [|t ts IH]; cbn in Hv;
        [by apply elem_of_nil in Hv|].
      apply elem_of_cons in Hv as [->|Hv]; [by exists [], t, ts|].
      destruct (IH Hv) as (ts1&t0&ts2&->&->). by exists (t :: ts1), t0, ts2. }
    destruct (from_dict_to_dict_fields t0 c) as (t'&c'&Hf&Hn&_).
    exists (Timetable.name t0), t', c'. split; [done|]. split; [|done].
    rewrite (load_timetable_list _ _ _ _ Hl), map_app. cbn [map].
    rewrite scan_timetables_split; [by rewrite Hf| |apply name_is_to_dict].
    apply absent_other_name. rewrite map_app in Hnd. cbn in Hnd.
    apply NoDup_app in Hnd as (_&Hd&_). intros Hin. apply (Hd _ Hin). by left.
Qed.

Lemma reachable_names_load_witness :
  NoDup (DataManager.get_timetable_names StoreExample.saved)
  ∧ ∀ v, v ∈ DataManager.get_timetable_names StoreExample.saved →
         ∃ n t' c',
           v = VStr n
           ∧ DataManager.load_timetable n StoreExample.saved Example.october
             = Some (Typed (t', c'))
           ∧ Timetable.name t' = n.
Proof.
  exact (reachable_names_load StoreExample.saved Example.october
           reachable_saved).
Defined.

(** * Further properties of subjects, settings and single files *)

Section Files.
Import DataManager.

Lemma subjects_of_to_dict (subjects : list Subject.t) :
  subjects_of (map subject_to_dict subjects) = Ok (map Typed subjects).
Proof.
  induction subjects as [|[] subjects IH]; [done|].
  cbn [map subjects_of]. rewrite IH. done.
Qed.

Lemma Subject_kwargs_refused sd :
  refused_subject sd → Subject.kwargs sd = Raise TypeError.
Proof.
  intros H. destruct sd as [| | | | |d]; try done.
  unfold Subject.kwargs.
  destruct (forallb _ d) eqn:E; [|done].
  destruct (H d eq_refl) as [Hu|[Hn|Hc]].
  - apply forallb_fields_false in Hu. congruence.
  - by rewrite Hn.
  - rewrite Hc. by destruct (lookup_key "name" d).
Qed.

Lemma subjects_of_refused l :
  Exists refused_subject l → raises (subjects_of l).
Proof.
  induction 1 as [sd l H|sd l _ IH]; cbn [subjects_of].
  - rewrite (Subject_kwargs_refused _ H). by eexists.
  - raise_cases. destruct IH as [x Hx]. rewrite Hx in *. done.
Qed.

End Files.

(** X17: after a successful [save_subjects], [load_subjects] returns the
    saved subjects, all five fields of each, in the same order. *)
Theorem load_subjects_after_save (w : io) (subjects : list Subject.t)
    (dm dm' : DataManager.t) :
  DataManager.save_subjects w subjects dm = (true, dm') →
  DataManager.load_subjects dm' = map Typed subjects.
Proof.
  unfold DataManager.save_subjects. destruct w; [|done]. intros [= <-].
  unfold DataManager.load_subjects. cbn.
  by rewrite subjects_of_to_dict.
Qed.

Lemma load_subjects_after_save_witness :
  DataManager.load_subjects
    (DataManager.save_subjects IoOk [Example.intro_cs; Example.algebra]
       DataManager.empty).2
  = [Typed Example.intro_cs; Typed Example.algebra].
Proof.
  exact (load_subjects_after_save IoOk [Example.intro_cs; Example.algebra]
           DataManager.empty _ eq_refl).
Defined.

(** X18: [load_subjects] gives no subject at all when the file is absent
    or unreadable, and also when a single stored item is refused by the
    constructor: the well-formed subjects beside it are lost too. *)
Theorem load_subjects_all_or_nothing (dm : DataManager.t) :
  (DataManager.subjects_file dm = Absent
   ∨ DataManager.subjects_file dm = Unreadable
   ∨ (∃ l, DataManager.subjects_file dm = Holds (VList l)
           ∧ Exists refused_subject l)) →
  DataManager.load_subjects dm = [].
Proof.
  unfold DataManager.load_subjects.
  intros [->|[->|(l&->&Hl)]]; try done.
  cbn [iterate mbind result_bind].
  by destruct (subjects_of_refused l Hl) as [x ->].
Qed.

Lemma load_subjects_all_or_nothing_witness :
  DataManager.load_subjects SubjectsExample.half_written = [].
Proof.
  refine (load_subjects_all_or_nothing SubjectsExample.half_written
            (or_intror (or_intror (ex_intro _ _ (conj eq_refl _))))).
  apply Exists_cons_tl, Exists_cons_hd.
  intros d [= <-]. by right; right.
Defined.

(** X19: after a successful [save_settings], [load_settings] returns the
    saved mapping itself: a key the mapping lacks stays absent, the
    defaults are not consulted. *)
Theorem load_settings_after_save (w : io) (settings : value)
    (dm dm' : DataManager.t) :
  DataManager.save_settings w settings dm = (true, dm') →
  DataManager.load_settings dm' = settings
  ∧ ∀ k, ¬ has_key k settings → ¬ has_key k (DataManager.load_settings dm').
Proof.
  unfold DataManager.save_settings. destruct w; [|done]. by intros [= <-].
Qed.

Lemma load_settings_after_save_witness :
  DataManager.load_settings
    (DataManager.save_settings IoOk (VDict [("theme", VStr "light")])
       DataManager.empty).2
  = VDict [("theme", VStr "light")]
  ∧ ∀ k, ¬ has_key k (VDict [("theme", VStr "light")]) →
         ¬ has_key k
             (DataManager.load_settings
                (DataManager.save_settings IoOk
                   (VDict [("theme", VStr "light")]) DataManager.empty).2).
Proof.
  exact (load_settings_after_save IoOk (VDict [("theme", VStr "light")])
           DataManager.empty _ eq_refl).
Defined.

(** X20: [import_from_json] of a file that a successful [export_to_json]
    wrote returns a timetable with the same name, semester and sessions,
    and the same creation date when that was not empty. *)
Theorem import_after_export (w : io) (t : Timetable.t) (f : file)
    (c : clock) :
  DataManager.export_to_json w t = (true, f) →
  ∃ t' c',
    DataManager.import_from_json f c = Some (Typed (t', c'))
    ∧ Timetable.name t' = Timetable.name t
    ∧ Timetable.semester t' = Timetable.semester t
    ∧ Timetable.sessions t' = Timetable.sessions t
    ∧ (Timetable.created_date t ≠ "" →
       Timetable.created_date t' = Timetable.created_date t).
Proof.
  unfold DataManager.export_to_json. destruct w; [|done]. intros [= <-].
  destruct (from_dict_to_dict_fields t c) as (t'&c'&Hf&Hn&Hs&Hss&Hc).
  exists t', c'. unfold DataManager.import_from_json. rewrite Hf.
  repeat split; try done. intros H. by destruct (Hc H).
Qed.

Lemma import_after_export_witness :
  ∃ t' c',
    DataManager.import_from_json
      (DataManager.export_to_json IoOk Example.fall).2 Example.october
    = Some (Typed (t', c'))
    ∧ Timetable.name t' = Timetable.name Example.fall
    ∧ Timetable.semester t' = Timetable.semester Example.fall
    ∧ Timetable.sessions t' = Timetable.sessions Example.fall
    ∧ (Timetable.created_date Example.fall ≠ "" →
       Timetable.created_date t' = Timetable.created_date Example.fall).
Proof.
  exact (import_after_export IoOk Example.fall _ Example.october eq_refl).
Defined.

(** X21: [import_from_json] returns [None] when the file is absent or
    unreadable, when it holds something without a [name] or a [semester]
    key, and when one of its sessions lacks [subject], [day] or
    [time_slot]. *)
Theorem import_from_json_none (c : clock) :
  DataManager.import_from_json Absent c = None
  ∧ DataManager.import_from_json Unreadable c = None
  ∧ (∀ data,
       ¬ has_key "name" data ∨ ¬ has_key "semester" data →
       DataManager.import_from_json (Holds data) c = None)
  ∧ (∀ data l,
       get data "sessions" (VList []) = Ok (VList l) →
       Exists (λ sd, ¬ has_key "subject" sd ∨ ¬ has_key "day" sd
                     ∨ ¬ has_key "time_slot" sd) l →
       DataManager.import_from_json (Holds data) c = None).
Proof.
  split; [done|]. split; [done|]. split.
  - intros data H. unfold DataManager.import_from_json.
    by destruct (from_dict_missing_key data c H) as [e ->].
  - intros data l Hs Hl.
    unfold DataManager.import_from_json, Timetable.from_dict. rewrite Hs.
    cbn [mbind result_bind iterate].
    destruct (sessions_from_dicts_raises l) as [e ->]; [|done].
    eapply Exists_impl; [exact Hl|]. apply session_from_dict_missing_key.
Qed.

(** * Properties of the computations of the window *)

Section Window.
Import ModernTimetableApp.
Implicit Types (t : Timetable.t) (s : ClassSession.t).

Lemma find_first {A} (f : A → bool) (l : list A) x :
  List.find f l = Some x →
  ∃ l1 l2, l = l1 ++ x :: l2 ∧ f x = true ∧ Forall (λ y, f y = false) l1.
Proof.
  induction l as [|y l IH]; cbn; [done|].
  destruct (f y) eqn:E.
  - intros [= ->]. exists [], l. by repeat split.
  - intros (l1&l2&->&Hx&H1)%IH. exists (y :: l1), l2.
    repeat split; [done|by constructor].
Qed.

Lemma find_None_Forall {A} (f : A → bool) (l : list A) :
  List.find f l = None ↔ Forall (λ y, f y = false) l.
Proof.
  induction l as [|y l IH]; cbn; [by split; [constructor|]|].
  destruct (f y) eqn:E.
  - split; [done|]. intros H. inversion H; congruence.
  - rewrite IH. split; [by constructor|]. by inversion 1.
Qed.

Lemma same_slot_test day (ts : TimeSlot.t) s :
  (String.eqb (ClassSession.day s) day
   && String.eqb (TimeSlot.start_time (ClassSession.time_slot s))
        (TimeSlot.start_time ts)
   && String.eqb (TimeSlot.end_time (ClassSession.time_slot s))
        (TimeSlot.end_time ts)) = true
  ↔ ClassSession.day s = day ∧ ClassSession.time_slot s = ts.
Proof.
  rewrite !andb_true_iff, !String.eqb_eq.
  destruct (ClassSession.time_slot s) as [st en], ts as [st' en']. cbn.
  split; [intros [[-> ->] ->]; done|intros [-> [= -> ->]]; done].
Qed.

Lemma same_slot_test_false day (ts : TimeSlot.t) s :
  (String.eqb (ClassSession.day s) day
   && String.eqb (TimeSlot.start_time (ClassSession.time_slot s))
        (TimeSlot.start_time ts)
   && String.eqb (TimeSlot.end_time (ClassSession.time_slot s))
        (TimeSlot.end_time ts)) = false
  ↔ ¬ (ClassSession.day s = day ∧ ClassSession.time_slot s = ts).
Proof. rewrite <-same_slot_test. by destruct (_ && _). Qed.

End Window.

(** X22: [find_session] returns the first session of the current timetable
    on that day, letter for letter, in that time slot: the sessions before
    it are on another day or in another slot, it is among the sessions
    [get_sessions_by_day] lists for the day, and the answer is [None]
    exactly when no session fits, or no timetable is open. *)
Theorem find_session_first {L : StrLower} (t : Timetable.t) (day : string)
    (ts : TimeSlot.t) :
  ModernTimetableApp.find_session None day ts = None
  ∧ (∀ s,
       ModernTimetableApp.find_session (Some t) day ts = Some s →
       ClassSession.day s = day ∧ ClassSession.time_slot s = ts
       ∧ s ∈ Timetable.get_sessions_by_day t day
       ∧ ∃ l1 l2,
           Timetable.sessions t = l1 ++ s :: l2
           ∧ Forall (λ x, ¬ (ClassSession.day x = day
                             ∧ ClassSession.time_slot x = ts)) l1)
  ∧ (ModernTimetableApp.find_session (Some t) day ts = None
     ↔ Forall (λ x, ¬ (ClassSession.day x = day
                       ∧ ClassSession.time_slot x = ts))
         (Timetable.sessions t)).
Proof.
  split; [done|]. split.
  - intros s (l1&l2&Hl&[Hd Hs]%same_slot_test&H1)%find_first.
    split; [done|]. split; [done|]. split.
    + apply by_day_elem_of. split.
      * rewrite Hl. apply elem_of_app. right. by left.
      * by rewrite Hd.
    + exists l1, l2. split; [done|].
      eapply Forall_impl; [exact H1|]. intros x. apply same_slot_test_false.
  - unfold ModernTimetableApp.find_session. rewrite find_None_Forall.
    split; intros H; (eapply Forall_impl; [exact H|]);
      intros x; apply same_slot_test_false.
Qed.

(** X23: editing a session that is in the timetable takes out its first
    copy and puts the updated session at the end, so the number of sessions
    stays; editing a session that is not in the timetable only adds the
    updated one; a dialog closed without a result changes nothing. *)
Theorem edit_session_moves_to_end (t : Timetable.t)
    (s updated : ClassSession.t) (c : clock) :
  (s ∈ Timetable.sessions t →
   Timetable.sessions
     (ModernTimetableApp.edit_session s (Some updated) t c).1
   = list_remove s (Timetable.sessions t) ++ [updated]
   ∧ length (Timetable.sessions
               (ModernTimetableApp.edit_session s (Some updated) t c).1)
     = length (Timetable.sessions t))
  ∧ (s ∉ Timetable.sessions t →
     Timetable.sessions
       (ModernTimetableApp.edit_session s (Some updated) t c).1
     = Timetable.sessions t ++ [updated])
  ∧ ModernTimetableApp.edit_session s None t c = (t, c).
Proof.
  unfold ModernTimetableApp.edit_session, Timetable.remove_session.
  split; [|split; [|done]]; intros Hs.
  - rewrite bool_decide_eq_true_2 by done. cbn. split; [done|].
    rewrite length_app. cbn.
    pose proof (Permutation_length (list_remove_cons_Permutation s _ Hs)) as HL.
    cbn in HL. lia.
  - by rewrite bool_decide_eq_false_2 by done.
Qed.

Section Counts.
Import ModernTimetableApp.
Implicit Types (acc : counts) (s : ClassSession.t) (code : string).

Lemma entry_key code acc kv : entry code acc = Some kv → kv.1 = code.
Proof.
  unfold entry. intros [_ H]%find_some. by apply String.eqb_eq.
Qed.

Lemma has_code_entry code acc :
  has_code code acc = true ↔ is_Some (entry code acc).
Proof.
  unfold has_code, entry. induction acc as [|kv acc IH]; cbn.
  - split; [done|]. by intros [? ?].
  - destruct (String.eqb kv.1 code); cbn; [|done]. split; [by eexists|done].
Qed.

Lemma has_code_keys code acc :
  has_code code acc = true ↔ code ∈ map fst acc.
Proof.
  unfold has_code. induction acc as [|kv acc IH]; cbn.
  - split; [done|]. by intros ?%elem_of_nil.
  - rewrite orb_true_iff, IH, elem_of_cons, String.eqb_eq. intuition congruence.
Qed.

Lemma entry_increment code code' acc :
  entry code' (increment code acc)
  = if String.eqb code code' then bump <$> entry code' acc
    else entry code' acc.
Proof.
  unfold entry. induction acc as [|[k [n subj]] acc IH]; cbn.
  - by destruct (String.eqb code code').
  - destruct (String.eqb_spec k code) as [->|Hk]; cbn.
    + destruct (String.eqb_spec code code') as [->|Hc]; cbn; [done|].
      done.
    + destruct (String.eqb_spec k code') as [->|Hk']; cbn; [|done].
      destruct (String.eqb_spec code code') as [->|_]; [done|done].
Qed.

Lemma entry_snoc code acc kv :
  entry code (acc ++ [kv])
  = match entry code acc with
    | Some e => Some e
    | None => if String.eqb kv.1 code then Some kv else None
    end.
Proof.
  unfold entry. induction acc as [|x acc IH]; cbn; [done|].
  by destruct (String.eqb x.1 code).
Qed.

(** What one turn of the loop does to the row of each code. *)
Lemma entry_count_session code acc s :
  entry code (count_session acc s)
  = if String.eqb (Subject.code (ClassSession.subject s)) code
    then Some (code,
               match entry code acc with
               | Some kv => (S kv.2.1, kv.2.2)
               | None => (1%nat, ClassSession.subject s)
               end)
    else entry code acc.
Proof.
  unfold count_session.
  destruct (has_code _ acc) eqn:E; rewrite entry_increment.
  - destruct (String.eqb_spec (Subject.code (ClassSession.subject s)) code)
      as [Hc|_]; [|done].
    rewrite Hc in E. apply has_code_entry in E as [kv Hkv]. rewrite Hkv.
    cbn. unfold bump. by rewrite (entry_key _ _ _ Hkv).
  - rewrite entry_snoc. cbn.
    destruct (String.eqb_spec (Subject.code (ClassSession.subject s)) code)
      as [Hc|_].
    + rewrite Hc in E. destruct (entry code acc) as [kv|] eqn:Hkv.
      * assert (is_Some (entry code acc)) as H%has_code_entry by by eexists.
        congruence.
      * cbn. by rewrite Hc.
    + by destruct (entry code acc).
Qed.

Lemma increment_keys code acc : map fst (increment code acc) = map fst acc.
Proof.
  induction acc as [|[k [n subj]] acc IH]; cbn; [done|].
  destruct (String.eqb k code); cbn; [done|by rewrite IH].
Qed.

Lemma increment_credits code acc :
  credits_sum (increment code acc) = credits_sum acc.
Proof.
  unfold credits_sum. induction acc as [|[k [n subj]] acc IH]; cbn; [done|].
  destruct (String.eqb k code); cbn; [done|by rewrite IH].
Qed.

Lemma increment_counted code acc :
  has_code code acc = true → counted (increment code acc) = S (counted acc).
Proof.
  unfold counted, has_code.
  induction acc as [|[k [n subj]] acc IH]; cbn; [done|].
  destruct (String.eqb k code); cbn; [done|]. intros H. rewrite IH; [lia|done].
Qed.

Lemma has_code_snoc code acc v : has_code code (acc ++ [(code, v)]) = true.
Proof.
  unfold has_code. rewrite existsb_app. cbn.
  by rewrite String.eqb_refl, orb_true_r.
Qed.

Lemma count_session_counted acc s :
  counted (count_session acc s) = S (counted acc).
Proof.
  unfold count_session. destruct (has_code _ acc) eqn:E.
  - by apply increment_counted.
  - rewrite increment_counted by apply has_code_snoc.
    unfold counted. rewrite map_app, sum_list_with_app. cbn. lia.
Qed.

Lemma count_session_keys acc s :
  map fst (count_session acc s)
  = if has_code (Subject.code (ClassSession.subject s)) acc
    then map fst acc
    else map fst acc ++ [Subject.code (ClassSession.subject s)].
Proof.
  unfold count_session. rewrite increment_keys.
  destruct (has_code _ acc); [done|by rewrite map_app].
Qed.

Lemma count_session_credits acc s :
  credits_sum (count_session acc s)
  = if has_code (Subject.code (ClassSession.subject s)) acc
    then credits_sum acc
    else credits_sum acc + Subject.credits (ClassSession.subject s).
Proof.
  unfold count_session. rewrite increment_credits.
  destruct (has_code _ acc); [done|].
  unfold credits_sum. rewrite map_app. cbn.
  induction (map _ acc) as [|x xs IH]; cbn; [lia|]. rewrite IH. lia.
Qed.

Lemma find_snoc {A} (f : A → bool) (l : list A) x :
  List.find f (l ++ [x])
  = match List.find f l with
    | Some y => Some y
    | None => if f x then Some x else None
    end.
Proof. induction l as [|y l IH]; cbn; [done|]. by destruct (f y). Qed.

(** The counts after the sessions [l]. *)
Lemma entry_fold code (l : list ClassSession.t) :
  entry code (fold_left count_session l [])
  = match List.find
            (λ s, String.eqb (Subject.code (ClassSession.subject s)) code) l
    with
    | Some s0 =>
        Some (code,
              (length
                 (List.filter
                    (λ s, String.eqb (Subject.code (ClassSession.subject s))
                            code) l),
               ClassSession.subject s0))
    | None => None
    end.
Proof.
  induction l as [|s l IH] using rev_ind; [done|].
  rewrite fold_left_app. cbn [fold_left].
  rewrite entry_count_session, IH, find_snoc, List.filter_app, length_app.
  cbn [List.find List.filter].
  destruct (List.find _ l) as [s0|] eqn:Hf;
    destruct (String.eqb _ code) eqn:E; cbn [length snd fst];
    rewrite ?Nat.add_0_r, ?Nat.add_1_r; try done.
  apply find_None_Forall in Hf.
  assert (List.filter
            (λ s, String.eqb (Subject.code (ClassSession.subject s)) code) l
          = []) as ->; [|done].
  clear -Hf. induction Hf as [|x l Hx _ IH]; cbn; [done|]. by rewrite Hx.
Qed.

Lemma keys_fold_NoDup (l : list ClassSession.t) :
  NoDup (map fst (fold_left count_session l [])).
Proof.
  induction l as [|s l IH] using rev_ind; [constructor|].
  rewrite fold_left_app. cbn [fold_left]. rewrite count_session_keys.
  destruct (has_code _ _) eqn:E; [done|].
  apply NoDup_app. split; [done|]. split; [|apply NoDup_singleton].
  intros k Hk ->%list_elem_of_singleton.
  apply has_code_keys in Hk. congruence.
Qed.

Lemma entry_of_elem code v acc :
  NoDup (map fst acc) → (code, v) ∈ acc → entry code acc = Some (code, v).
Proof.
  unfold entry. induction acc as [|[k w] acc IH]; cbn.
  - by intros _ ?%elem_of_nil.
  - intros [Hk Hnd]%NoDup_cons [[= -> ->]|Hin]%elem_of_cons.
    + by rewrite String.eqb_refl.
    + destruct (String.eqb_spec k code) as [->|_]; [|by apply IH].
      destruct Hk. apply list_elem_of_In. apply list_elem_of_In in Hin.
      by apply (in_map fst) in Hin.
Qed.

(** The second loop sees the codes the first loop has rows for, and has
    added up the credits of their subjects. *)
Lemma credits_fold (l : list ClassSession.t) :
  (fold_left add_credits l (0, [])).1
  = credits_sum (fold_left count_session l [])
  ∧ ∀ code, code ∈ (fold_left add_credits l (0, [])).2
            ↔ code ∈ map fst (fold_left count_session l []).
Proof.
  induction l as [|s l [IH1 IH2]] using rev_ind.
  - split; [done|]. intros code. by split; intros ?%elem_of_nil.
  - rewrite !fold_left_app. cbn [fold_left].
    rewrite count_session_credits, count_session_keys.
    destruct (fold_left add_credits l (0, [])) as [total seen].
    cbn [fst snd] in *. unfold add_credits.
    destruct (has_code _ (fold_left count_session l [])) eqn:E.
    + rewrite bool_decide_eq_true_2; [done|].
      by apply IH2, has_code_keys.
    + rewrite bool_decide_eq_false_2.
      * cbn [fst snd]. split; [by rewrite IH1|].
        intros code. rewrite elem_of_cons, elem_of_app, IH2,
          list_elem_of_singleton. tauto.
      * intros H%IH2%has_code_keys. congruence.
Qed.

End Counts.

(** X24: the subject breakdown of the overview has one row for each subject
    code that occurs, in no code twice; the count of a row is the number of
    sessions [get_sessions_by_subject] returns for the code, its subject is
    the one of the first session with the code, and the counts add up to the
    number of sessions. *)
Theorem subject_counts_rows (t : Timetable.t) :
  NoDup (map fst (ModernTimetableApp.subject_counts t))
  ∧ counted (ModernTimetableApp.subject_counts t)
    = length (Timetable.sessions t)
  ∧ (∀ code n subj,
       (code, (n, subj)) ∈ ModernTimetableApp.subject_counts t →
       n = length (Timetable.get_sessions_by_subject t code)
       ∧ (0 < n)%nat
       ∧ ∃ l1 s0 l2,
           Timetable.sessions t = l1 ++ s0 :: l2
           ∧ subj = ClassSession.subject s0
           ∧ Subject.code (ClassSession.subject s0) = code
           ∧ Forall (λ x, Subject.code (ClassSession.subject x) ≠ code) l1)
  ∧ (∀ s, s ∈ Timetable.sessions t →
          ∃ n subj,
            (Subject.code (ClassSession.subject s), (n, subj))
            ∈ ModernTimetableApp.subject_counts t).
Proof.
  unfold ModernTimetableApp.subject_counts, Timetable.get_sessions_by_subject.
  split; [apply keys_fold_NoDup|]. split; [|split].
  - induction (Timetable.sessions t) as [|s l IH] using rev_ind; [done|].
    rewrite fold_left_app, length_app. cbn [fold_left].
    rewrite count_session_counted, IH. cbn. lia.
  - intros code n subj Hin.
    apply (entry_of_elem _ _ _ (keys_fold_NoDup _)) in Hin.
    rewrite entry_fold in Hin.
    destruct (List.find _ _) as [s0|] eqn:Hf; [|done].
    injection Hin as <- <-.
    apply find_first in Hf as (l1&l2&Hl&Hs0%String.eqb_eq&H1).
    split; [done|]. split.
    + rewrite Hl, List.filter_app, length_app. cbn [List.filter].
      rewrite Hs0, String.eqb_refl. cbn. lia.
    + exists l1, s0, l2. repeat split; try done.
      eapply Forall_impl; [exact H1|]. intros x. by apply String.eqb_neq.
  - intros s Hs.
    destruct (List.find
                (λ x, String.eqb (Subject.code (ClassSession.subject x))
                        (Subject.code (ClassSession.subject s)))
                (Timetable.sessions t)) as [s0|] eqn:Hf.
    + pose proof (entry_fold (Subject.code (ClassSession.subject s))
                    (Timetable.sessions t)) as He.
      rewrite Hf in He. apply find_some in He as [He _].
      eexists _, _. apply list_elem_of_In. exact He.
    + apply find_None_Forall in Hf. rewrite Forall_forall in Hf.
      specialize (Hf s Hs). by rewrite String.eqb_refl in Hf.
Qed.

(** X25: the total of credits shown in the overview is the sum of the
    credits over the rows of the subject breakdown: a subject code counts
    once, with the credits of the first session that has it. *)
Theorem total_credits_of_rows (t : Timetable.t) :
  ModernTimetableApp.total_credits t
  = credits_sum (ModernTimetableApp.subject_counts t).
Proof.
  unfold ModernTimetableApp.total_credits, ModernTimetableApp.subject_counts.
  apply credits_fold.
Qed.

Section Weekly.
Context {L : StrLower}.

Lemma weekday_test_spec s : weekday_test s = true ↔ is_weekday s.
Proof.
  unfold weekday_test, is_weekday. rewrite existsb_exists. split.
  - intros (d&Hd&Hl%String.eqb_eq).
    exists d. split; [by apply list_elem_of_In|done].
  - intros (d&Hd&Hl). exists d.
    split; [by apply list_elem_of_In|by apply String.eqb_eq].
Qed.

Lemma weekly_sum (l : list ClassSession.t) :
  lower_on_ascii →
  (sum_list
     (map (λ day,
             length
               (List.filter
                  (λ s, String.eqb (lower (ClassSession.day s)) (lower day))
                  l))
        WEEKDAYS)
   + length (List.filter (λ s, negb (weekday_test s)) l))%nat
  = length l.
Proof.
  intros HL.
  assert (lower "Monday" = "monday") as E1 by (rewrite HL; cbn; by repeat split).
  assert (lower "Tuesday" = "tuesday") as E2
    by (rewrite HL; cbn; by repeat split).
  assert (lower "Wednesday" = "wednesday") as E3
    by (rewrite HL; cbn; by repeat split).
  assert (lower "Thursday" = "thursday") as E4
    by (rewrite HL; cbn; by repeat split).
  assert (lower "Friday" = "friday") as E5 by (rewrite HL; cbn; by repeat split).
  assert (lower "Saturday" = "saturday") as E6
    by (rewrite HL; cbn; by repeat split).
  induction l as [|s l IH]; [done|].
  cbn [WEEKDAYS map sum_list_with id] in *. cbn [List.filter].
  remember (List.filter (λ s, negb (weekday_test s)) l) as r eqn:Hr. clear Hr.
  unfold weekday_test. cbn [WEEKDAYS existsb].
  rewrite E1, E2, E3, E4, E5, E6 in *.
  remember (lower (ClassSession.day s)) as x eqn:Hx. clear Hx.
  destruct (String.eqb_spec x "monday") as [->|_]; [cbn; lia|].
  destruct (String.eqb_spec x "tuesday") as [->|_]; [cbn; lia|].
  destruct (String.eqb_spec x "wednesday") as [->|_]; [cbn; lia|].
  destruct (String.eqb_spec x "thursday") as [->|_]; [cbn; lia|].
  destruct (String.eqb_spec x "friday") as [->|_]; [cbn; lia|].
  destruct (String.eqb_spec x "saturday") as [->|_]; [cbn; lia|].
  cbn. lia.
Qed.

End Weekly.

(** X26: the weekly distribution has one number for each of the six days
    of [WEEKDAYS]; together with the sessions on no such day (a Sunday, a
    misspelt day) the numbers add up to the number of sessions.  What is
    used of [str.lower()] is its value on the six ASCII names. *)
Theorem weekly_distribution_total {L : StrLower} (t : Timetable.t) :
  lower_on_ascii →
  map fst (ModernTimetableApp.weekly_distribution t) = WEEKDAYS
  ∧ ∃ rest,
      selects (λ s, ¬ is_weekday s) (Timetable.sessions t) rest
      ∧ (sum_list (map snd (ModernTimetableApp.weekly_distribution t))
         + length rest)%nat
        = length (Timetable.sessions t).
Proof.
  intros HL. split; [done|].
  exists (List.filter (λ s, negb (weekday_test s)) (Timetable.sessions t)).
  split.
  - apply selects_filter. intros s. rewrite <-weekday_test_spec.
    by destruct (weekday_test s).
  - unfold ModernTimetableApp.weekly_distribution,
      Timetable.get_sessions_by_day.
    rewrite map_map. cbn [snd]. by apply weekly_sum.
Qed.

Lemma weekly_distribution_total_witness :
  map fst (@ModernTimetableApp.weekly_distribution ascii_only
             AddRemoveExample.two_sessions)
  = WEEKDAYS
  ∧ ∃ rest,
      selects (λ s, ¬ @is_weekday ascii_only s)
        (Timetable.sessions AddRemoveExample.two_sessions) rest
      ∧ (sum_list
           (map snd
              (@ModernTimetableApp.weekly_distribution ascii_only
                 AddRemoveExample.two_sessions))
         + length rest)%nat
        = length (Timetable.sessions AddRemoveExample.two_sessions).
Proof.
  exact (@weekly_distribution_total ascii_only AddRemoveExample.two_sessions
           (λ s _, eq_refl)).
Defined.

(** * A further property of the CSV writer *)

Section Quoting.

Lemma append_length s1 s2 :
  String.length (s1 +:+ s2) = (String.length s1 + String.length s2)%nat.
Proof.
  induction s1 as [|c s1 IH]; [done|].
  change (String c s1 +:+ s2) with (String c (s1 +:+ s2)). cbn. by rewrite IH.
Qed.

Lemma append_cancel_r s1 s2 t : s1 +:+ t = s2 +:+ t → s1 = s2.
Proof.
  revert s2. induction s1 as [|c1 s1 IH]; intros [|c2 s2] H; try done.
  - apply (f_equal String.length) in H.
    change (String.length t = S (String.length (s2 +:+ t))) in H.
    rewrite append_length in H. lia.
  - apply (f_equal String.length) in H.
    change (S (String.length (s1 +:+ t)) = String.length t) in H.
    rewrite append_length in H. lia.
  - change (String c1 (s1 +:+ t) = String c2 (s2 +:+ t)) in H.
    injection H as -> H. by rewrite (IH _ H).
Qed.

Lemma double_quotes_inj s1 s2 : double_quotes s1 = double_quotes s2 → s1 = s2.
Proof.
  revert s2. induction s1 as [|c1 s1 IH]; intros [|c2 s2]; cbn.
  - done.
  - by destruct (Ascii.eqb c2 dquote).
  - by destruct (Ascii.eqb c1 dquote).
  - destruct (Ascii.eqb_spec c1 dquote) as [->|H1],
             (Ascii.eqb_spec c2 dquote) as [->|H2].
    + intros [= H]. by rewrite (IH _ H).
    + intros [= <- _]. done.
    + intros [= -> _]. done.
    + intros [= -> H]. by rewrite (IH _ H).
Qed.

End Quoting.

(** X27: the writer's quoting loses nothing: two values that are written
    as the same field are the same value. *)
Theorem csv_field_inj (s1 s2 : string) :
  csv_field s1 = csv_field s2 → s1 = s2.
Proof.
  unfold csv_field.
  destruct (needs_quotes s1) eqn:E1, (needs_quotes s2) eqn:E2.
  - intros [= H%append_cancel_r]. by apply double_quotes_inj.
  - intros <-. done.
  - intros ->. done.
  - done.
Qed.

Lemma csv_field_inj_witness : "a,b" = "a,b".
Proof. exact (csv_field_inj "a,b" "a,b" eq_refl). Defined.
